(** * ubuntu-manifest-archive-diff: a shallow embedding of [cli.py]

    The console script reads a package manifest, asks Launchpad and the snap
    store for the versions currently published, and writes a second manifest
    with the highest version found for every package.

    The embedding follows [src/ubuntu_manifest_archive_diff/cli.py]:
    - Python [str] values are Rocq strings (code points below 256);
    - exceptions are the [Raise] branch of [outcome];
    - everything the script does to the outside (remote calls, lines printed,
      files written) is recorded in an explicit [World], threaded through the
      monad [M];
    - Launchpad, the snap store and the file system permissions are a record
      of functions, [Services]; [debian_support.version_compare] is a
      parameter of the resolver. *)

From Stdlib Require Import ZArith String Ascii List Lia DecimalString.
From stdpp Require Import gmap strings list.

Set Warnings "-register-all".

(** ** Python string primitives used by the script *)

Module Py.

(** Code point of a character. *)
Definition ord (c : ascii) : nat := nat_of_ascii c.

(** [str.isspace] on one character, for code points below 256: the ASCII
    white space (TAB, LF, VT, FF, CR, the separators FS GS RS US, SPACE),
    NEL and the no-break space. *)
Definition isspace (c : ascii) : bool :=
  let n := ord c in
  (((9 <=? n) && (n <=? 13)) || ((28 <=? n) && (n <=? 32))
   || (n =? 133) || (n =? 160))%nat.

Definition isdigit (c : ascii) : bool :=
  let n := ord c in ((48 <=? n) && (n <=? 57))%nat.

Definition isalpha_ascii (c : ascii) : bool :=
  let n := ord c in
  (((65 <=? n) && (n <=? 90)) || ((97 <=? n) && (n <=? 122)))%nat.

(** [s.lstrip()], [s.rstrip()] and [s.strip()] without argument. *)
Fixpoint lstrip (s : string) : string :=
  match s with
  | "" => ""
  | String c s' => if isspace c then lstrip s' else s
  end.

Fixpoint rstrip (s : string) : string :=
  match s with
  | "" => ""
  | String c s' =>
      match rstrip s' with
      | "" => if isspace c then "" else String c ""
      | r => String c r
      end
  end.

Definition strip (s : string) : string := rstrip (lstrip s).

(** Does [s] start with a white space character, or is it empty?  This is
    where a field ends in [split]. *)
Definition field_ends (s : string) : bool :=
  match s with
  | "" => true
  | String c _ => isspace c
  end.

(** [s.split()] without argument: the maximal runs of characters that are
    not white space, in order; no empty field is produced. *)
Fixpoint split (s : string) : list string :=
  match s with
  | "" => []
  | String c s' =>
      if isspace c then split s'
      else if field_ends s' then String c "" :: split s'
      else match split s' with
           | f :: fs => String c f :: fs
           | [] => [String c ""]
           end
  end.

(** [s.split(sep)] for a separator of one character: every separator cuts,
    empty fields are kept. *)
Fixpoint split_on (sep : ascii) (s : string) : list string :=
  match s with
  | "" => [""]
  | String c s' =>
      if Ascii.eqb c sep then "" :: split_on sep s'
      else match split_on sep s' with
           | f :: fs => String c f :: fs
           | [] => [String c ""]
           end
  end.

(** [sub in s]. *)
Fixpoint contains (sub s : string) : bool :=
  String.prefix sub s
  || match s with
     | "" => false
     | String _ s' => contains sub s'
     end.

(** [s.replace(old, new)] for a non-empty [old]: scan from the left; where
    [old] matches, emit [new] and jump over the match ([skip] counts the
    characters of the match still to be jumped over). *)
Fixpoint replace_from (old new : string) (skip : nat) (s : string) : string :=
  match s with
  | "" => ""
  | String c s' =>
      match skip with
      | S k => replace_from old new k s'
      | O =>
          if String.prefix old s
          then new +:+ replace_from old new (String.length old - 1) s'
          else String c (replace_from old new 0 s')
      end
  end.

(** With an empty [old], Python puts [new] before every character and at
    the end. *)
Fixpoint interleave (new s : string) : string :=
  match s with
  | "" => new
  | String c s' => new +:+ String c (interleave new s')
  end.

Definition replace (s old new : string) : string :=
  match old with
  | "" => interleave new s
  | _ => replace_from old new 0 s
  end.

(** [str(n)] for an integer. *)
Definition str_int (z : Z) : string := NilZero.string_of_int (Z.to_int z).

(** [int(s)] for a string of decimal digits. *)
Definition int_digits (s : string) : N :=
  fold_left (fun acc c => (10 * acc + N.of_nat (ord c - 48))%N)
            (list_ascii_of_string s) 0%N.

Definition tab : string := String "009"%char "".
Definition nl : string := String "010"%char "".
Definition dquote : string := String "034"%char "".
Definition squote : string := String "039"%char "".
Definition backslash : string := String "092"%char "".

End Py.

(** ** Exceptions and outcomes *)

(** The exceptions that can end a run.  [RemoteError] stands for whatever
    launchpadlib or requests raise (service unreachable, credential refused,
    unknown series, malformed JSON, ...). *)
Inductive exn : Type :=
| ValueError
| KeyError
| IndexError
| TypeError
| OSError
| RemoteError (msg : string).

Inductive outcome (A : Type) : Type :=
| Ok (a : A)
| Raise (e : exn).

Arguments Ok {A} a.
Arguments Raise {A} e.

(** ** JSON values, as [response.json()] returns them *)

Module Json.

(** Python values obtained from JSON text (numbers are integers here: the
    store's revisions are). An object is the [dict] in insertion order. *)
Inductive json : Type :=
| JNull
| JBool (b : bool)
| JInt (z : Z)
| JStr (s : string)
| JList (l : list json)
| JObj (kvs : list (string * json)).

Fixpoint assoc (k : string) (kvs : list (string * json)) : option json :=
  match kvs with
  | [] => None
  | (k', v) :: rest => if String.eqb k k' then Some v else assoc k rest
  end.

(** [v[k]] for a string key [k]. *)
Definition getitem_key (v : json) (k : string) : outcome json :=
  match v with
  | JObj kvs => match assoc k kvs with
                | Some x => Ok x
                | None => Raise KeyError
                end
  | _ => Raise TypeError
  end.

(** [v[i]] for an index [i >= 0]. The keys of a JSON object are strings, so
    an integer is never among them. *)
Definition getitem_index (v : json) (i : nat) : outcome json :=
  match v with
  | JList l => match nth_error l i with
               | Some x => Ok x
               | None => Raise IndexError
               end
  | JStr s => match String.get i s with
              | Some c => Ok (JStr (String c ""))
              | None => Raise IndexError
              end
  | JObj _ => Raise KeyError
  | _ => Raise TypeError
  end.

(** [repr] of a string: quoted, with the escapes Python uses. *)
Definition isprintable (c : ascii) : bool :=
  let n := Py.ord c in
  (((32 <=? n) && (n <=? 126)) || ((161 <=? n) && negb (n =? 173)))%nat.

Definition hex_digit (n : nat) : ascii :=
  match String.get n "0123456789abcdef" with
  | Some c => c
  | None => "0"%char
  end.

Definition repr_char (quote c : ascii) : string :=
  if Ascii.eqb c quote || Ascii.eqb c "092"%char then String "092"%char (String c "")
  else if Ascii.eqb c "009"%char then "\t"
  else if Ascii.eqb c "010"%char then "\n"
  else if Ascii.eqb c "013"%char then "\r"
  else if isprintable c then String c ""
  else "\x" +:+ String (hex_digit (Py.ord c / 16)) (String (hex_digit (Py.ord c mod 16)) "").

Definition repr_str (s : string) : string :=
  let quote :=
    if Py.contains Py.squote s && negb (Py.contains Py.dquote s)
    then "034"%char else "039"%char in
  String quote
    (String.concat "" (map (repr_char quote) (list_ascii_of_string s))
     +:+ String quote "").

(** [repr(v)]. *)
Fixpoint repr (v : json) : string :=
  match v with
  | JNull => "None"
  | JBool true => "True"
  | JBool false => "False"
  | JInt z => Py.str_int z
  | JStr s => repr_str s
  | JList l => "[" +:+ String.concat ", " (map repr l) +:+ "]"
  | JObj kvs =>
      "{" +:+ String.concat ", "
               (map (fun kv => repr_str (fst kv) +:+ ": " +:+ repr (snd kv)) kvs)
      +:+ "}"
  end.

(** [str(v)], which is what an f-string field formats with: a string is
    itself, every other value is its [repr]. *)
Definition str (v : json) : string :=
  match v with
  | JStr s => s
  | _ => repr v
  end.

End Json.
Import Json.

(** ** The outside world *)

(** Launchpad objects are handles (launchpadlib identifies them by link). *)
Definition link : Type := string.

(** A binary publication record, with the attributes the script reads. *)
Module Publication.
Record t : Type := {
  status : string;
  binary_package_name : string;
  binary_package_version : string;
  pocket : string
}.
End Publication.
Definition BinaryPublication : Type := Publication.t.

(** An HTTP response: [response.ok] and what [response.json()] gives. *)
Record Response : Type := {
  ok : bool;
  json_body : outcome json
}.

(** Remote calls, in the order the script issues them. *)
Inductive Call : Type :=
| LoginWith (user service_root version : string)
| LoginAnonymously (consumer service_root version : string)
| Distributions (launchpad : link) (name : string)
| GetSeries (distribution : link) (name_or_version : string)
| GetDistroArchSeries (series : link) (archtag : string)
| People (launchpad : link) (owner : string)
| GetPPAByName (person : link) (name : string)
| GetPublishedBinaries (archive : link) (exact_match : bool)
    (binary_name : string) (distro_arch_series : link) (pocket : string)
    (order_by_date : bool) (status : string)
| Post (url : string) (headers : list (string * string)) (body : json).

(** What the script has done so far: lines printed, remote calls issued, and
    the text files on disk. *)
Record World : Type := {
  stdout : list string;
  calls : list Call;
  files : gmap string string
}.

(** The services the script talks to, and the library comparator it imports.
    Every remote answer is a function of the request. *)
Class Services : Type := {
  (** [debian_support.version_compare(a, b)]: negative, zero or positive. *)
  version_compare : string -> string -> outcome Z;
  login_with : string -> outcome link;
  login_anonymously : string -> outcome link;
  distributions : link -> string -> outcome link;
  getSeries : link -> string -> outcome link;
  getDistroArchSeries : link -> string -> outcome link;
  main_archive : link -> link;
  people : link -> string -> outcome link;
  getPPAByName : link -> string -> outcome link;
  getPublishedBinaries :
    link -> bool -> string -> link -> string -> bool -> string ->
    outcome (list BinaryPublication);
  requests_post : string -> list (string * string) -> json -> outcome Response;
  (** can [open(path, 'w')] succeed? *)
  writable : string -> bool
}.

(** ** The monad of the script: world passing with exceptions *)

Definition M (A : Type) : Type := World -> World * outcome A.

Definition ret {A} (a : A) : M A := fun w => (w, Ok a).

Definition raise {A} (e : exn) : M A := fun w => (w, Raise e).

Definition bind {A B} (m : M A) (k : A -> M B) : M B :=
  fun w => match m w with
           | (w', Ok a) => k a w'
           | (w', Raise e) => (w', Raise e)
           end.

Notation "'let*' x ':=' m 'in' k" := (bind m (fun x => k))
  (at level 10, x pattern, m at level 100, k at level 200).

(** A pure computation that may raise. *)
Definition lift {A} (r : outcome A) : M A := fun w => (w, r).

(** [print(s)]. *)
Definition print (s : string) : M unit :=
  fun w => ({| stdout := stdout w ++ [s]; calls := calls w; files := files w |}, Ok tt).

(** A remote call: it is recorded, then answers or raises. *)
Definition remote {A} (c : Call) (answer : outcome A) : M A :=
  fun w => ({| stdout := stdout w; calls := calls w ++ [c]; files := files w |}, answer).

(** [for x in xs: body], where [body] updates the loop's variables [s]. *)
Fixpoint for_each {A S} (xs : list A) (body : A -> S -> M S) (s : S) : M S :=
  match xs with
  | [] => ret s
  | x :: xs' => let* s' := body x s in for_each xs' body s'
  end.

(** [open(path, 'w')]: the file is created or emptied. *)
Definition open_w `{Services} (path : string) : M unit :=
  fun w => if writable path
           then ({| stdout := stdout w; calls := calls w;
                    files := <[path := ""]> (files w) |}, Ok tt)
           else (w, Raise OSError).

(** [f.write(s)] on a file opened at [path]. *)
Definition write (path s : string) : M unit :=
  fun w => ({| stdout := stdout w; calls := calls w;
               files := <[path := default "" (files w !! path) +:+ s]> (files w) |},
            Ok tt).

(** ** The script *)

(** Which archive pockets are checked. *)
Definition ARCHIVE_POCKETS : list string := ["Updates"; "Security"; "Release"].

Definition SNAP_REFRESH_URL : string := "https://api.snapcraft.io/v2/snaps/refresh".

(** [a, b = l] and [a, b, c = l]: unpacking raises [ValueError] unless the
    list has exactly that many items. *)
Definition unpack2 {A} (l : list A) : outcome (A * A) :=
  match l with
  | [a; b] => Ok (a, b)
  | _ => Raise ValueError
  end.

Definition unpack3 {A} (l : list A) : outcome (A * A * A) :=
  match l with
  | [a; b; c] => Ok (a, b, c)
  | _ => Raise ValueError
  end.

(** Truth value of an optional string ([None] and the empty string are
    false). *)
Definition truthy (o : option string) : bool :=
  match o with
  | Some (String _ _) => true
  | _ => false
  end.

(** The body of the loop over the manifest's lines (cli.py, lines 263-269):
    the two lists [binary_package_names] and [snap_package_names] are the
    loop's variables. *)
Definition parse_line (line : string)
    (st : list string * list (string * string))
  : outcome (list string * list (string * string)) :=
  let '(binary_package_names, snap_package_names) := st in
  if Py.contains "snap:" line then
    match unpack3 (Py.split (Py.strip line)) with
    | Ok (snap_package_name, snap_package_channel, snap_package_version) =>
        let snap_package_name := Py.replace snap_package_name "snap:" "" in
        Ok (binary_package_names,
            snap_package_names ++ [(snap_package_name, snap_package_channel)])
    | Raise e => Raise e
    end
  else
    match unpack2 (Py.split (Py.strip line)) with
    | Ok (binary_package_name, package_version) =>
        Ok (binary_package_names ++ [binary_package_name], snap_package_names)
    | Raise e => Raise e
    end.

(** [for line in manifest: ...] (lines 260-269). *)
Fixpoint parse_lines (manifest : list string)
    (st : list string * list (string * string))
  : outcome (list string * list (string * string)) :=
  match manifest with
  | [] => Ok st
  | line :: rest =>
      match parse_line line st with
      | Ok st' => parse_lines rest st'
      | Raise e => Raise e
      end
  end.

Definition parse_manifest (manifest : list string)
  : outcome (list string * list (string * string)) :=
  parse_lines manifest ([], []).

Section Script.

Context `{Services}.

(** The request the snap resolver sends for one snap (lines 41-56). *)
Definition snap_request_data (snap_name snap_channel : string) : json :=
  JObj [("context", JList []);
        ("actions",
         JList [JObj [("action", JStr "download");
                      ("instance-key", JStr "0");
                      ("name", JStr snap_name);
                      ("channel", JStr snap_channel)]])].

Definition snap_request_headers (architecture : string) : list (string * string) :=
  [("Snap-Device-Series", "16");
   ("Snap-Device-Architecture", architecture);
   ("Content-Type", "application/json")].

(** The body of the loop over the snaps (lines 40-107), with the list
    [manifest_snapstore_versions] as the loop's variable. *)
Definition snapstore_version (architecture : string)
    (snap : string * string)
    (manifest_snapstore_versions : list (string * string * json))
  : M (list (string * string * json)) :=
  let '(snap_name, snap_channel) := snap in
  let data := snap_request_data snap_name snap_channel in
  let headers := snap_request_headers architecture in
  let* response := remote (Post SNAP_REFRESH_URL headers data)
                          (requests_post SNAP_REFRESH_URL headers data) in
  if negb (ok response) then
    let* _ := print ("Failed to get info on snap '" +:+ snap_name
                     +:+ "', in channel '" +:+ snap_channel
                     +:+ "', for arch '" +:+ architecture +:+ "'") in
    (* continue *)
    ret manifest_snapstore_versions
  else
    let* body := lift (json_body response) in
    let* results := lift (getitem_key body "results") in
    let* result0 := lift (getitem_index results 0) in
    let* snap_info := lift (getitem_key result0 "snap") in
    let* revision := lift (getitem_key snap_info "revision") in
    ret (manifest_snapstore_versions ++ [(snap_name, snap_channel, revision)]).

Definition _get_snapstore_versions
    (snap_package_names : list (string * string)) (architecture : string)
  : M (list (string * string * json)) :=
  for_each snap_package_names (snapstore_version architecture) [].

Definition _get_binary_packages (archive : link) (binary_package_name : string)
    (lp_arch_series : link) (pocket : string) (status : string)
  : M (list BinaryPublication) :=
  remote (GetPublishedBinaries archive true binary_package_name
                               lp_arch_series pocket true status)
         (getPublishedBinaries archive true binary_package_name
                               lp_arch_series pocket true status).

(** The body of [for ppa in ppas] (lines 146-158); the loop's variable is
    the list [binary_package_versions_found_in_archive]. *)
Definition ppa_versions (launchpad lp_arch_series : link)
    (binary_package_name : string) (ppa : string) (found : list string)
  : M (list string) :=
  let* (ppa_owner, ppa_name) := lift (unpack2 (Py.split_on "/" ppa)) in
  let* person := remote (People launchpad ppa_owner) (people launchpad ppa_owner) in
  let* archive := remote (GetPPAByName person ppa_name) (getPPAByName person ppa_name) in
  let* _ := print ("using pocket " +:+ Py.dquote +:+ "Release" +:+ Py.dquote
                   +:+ " when using a PPA " +:+ ppa +:+ " ...") in
  let pocket := "Release" in
  let* ppa_binaries :=
    _get_binary_packages archive binary_package_name lp_arch_series pocket "Published" in
  for_each ppa_binaries
    (fun ppa_binary found =>
       let* _ := print ("Found " +:+ Publication.status ppa_binary +:+ " "
                        +:+ Publication.binary_package_name ppa_binary +:+ " version "
                        +:+ Publication.binary_package_version ppa_binary
                        +:+ " in " +:+ ppa +:+ " ppa.") in
       ret (found ++ [Publication.binary_package_version ppa_binary]))
    found.

(** The body of [for pocket in ARCHIVE_POCKETS] (lines 161-173). *)
Definition pocket_versions (ubuntu lp_arch_series : link)
    (binary_package_name : string) (pocket : string) (found : list string)
  : M (list string) :=
  let archive := main_archive ubuntu in
  let* archive_binaries :=
    _get_binary_packages archive binary_package_name lp_arch_series pocket "Published" in
  if negb (length archive_binaries =? 0)%nat then
    for_each archive_binaries
      (fun archive_binary found =>
         let* _ := print ("Found " +:+ Publication.status archive_binary +:+ "  "
                          +:+ Publication.binary_package_name archive_binary +:+ " version "
                          +:+ Publication.binary_package_version archive_binary
                          +:+ " in " +:+ Publication.pocket archive_binary
                          +:+ " pocket of the archive") in
         ret (found ++ [Publication.binary_package_version archive_binary]))
      found
  else ret found.

(** Lines 143-173: every version found for one package, PPAs first. *)
Definition versions_found_in_archive (launchpad ubuntu lp_arch_series : link)
    (ppas : list string) (binary_package_name : string)
  : M (list string) :=
  let binary_package_versions_found_in_archive := [] in
  let* found :=
    match ppas with
    | [] => ret binary_package_versions_found_in_archive
    | _ => for_each ppas (ppa_versions launchpad lp_arch_series binary_package_name)
                    binary_package_versions_found_in_archive
    end in
  for_each ARCHIVE_POCKETS (pocket_versions ubuntu lp_arch_series binary_package_name)
           found.

(** Lines 176-179: the greatest version found, starting from ["0.0.0"]. *)
Definition find_max_version (found : list string) : M string :=
  for_each found
    (fun binary_package_version_found_in_archive max_version =>
       let* c := lift (version_compare binary_package_version_found_in_archive
                                       max_version) in
       if (c >? 0)%Z then ret binary_package_version_found_in_archive
       else ret max_version)
    "0.0.0".

(** The body of [for binary_package_name in binary_package_names]
    (lines 141-181). *)
Definition archive_version (launchpad ubuntu lp_arch_series : link)
    (architecture : string) (ppas : list string)
    (binary_package_name : string)
    (manifest_archive_versions : list (string * string))
  : M (list (string * string)) :=
  (* ensure that the architecture is stripped from the package name *)
  let binary_package_name :=
    Py.replace binary_package_name (":" +:+ architecture) "" in
  let* found :=
    versions_found_in_archive launchpad ubuntu lp_arch_series ppas
                              binary_package_name in
  let* max_version := find_max_version found in
  let manifest_archive_versions :=
    manifest_archive_versions ++ [(binary_package_name, max_version)] in
  let* _ := print ("Max version of package " +:+ binary_package_name
                   +:+ " found in archive is " +:+ max_version) in
  ret manifest_archive_versions.

Definition get_archive_versions (series : string)
    (binary_package_names : list string) (architecture : string)
    (ppas : list string) (lp_user : option string)
  : M (list (string * string)) :=
  let* launchpad :=
    if truthy lp_user then
      let user := default "" lp_user in
      remote (LoginWith user "production" "devel") (login_with user)
    else
      remote (LoginAnonymously "ubuntu-manifest-archive-diff" "production" "devel")
             (login_anonymously "ubuntu-manifest-archive-diff") in
  let* ubuntu := remote (Distributions launchpad "ubuntu")
                        (distributions launchpad "ubuntu") in
  let* lp_series := remote (GetSeries ubuntu series) (getSeries ubuntu series) in
  let* lp_arch_series := remote (GetDistroArchSeries lp_series architecture)
                                (getDistroArchSeries lp_series architecture) in
  for_each binary_package_names
           (archive_version launchpad ubuntu lp_arch_series architecture ppas)
           [].

(** Lines 274-278: the output manifest. *)
Definition write_manifest (archive_manifest_filename : string)
    (manifest_archive_versions : list (string * string))
    (manifest_snapstore_versions : list (string * string * json))
  : M unit :=
  let* _ := open_w archive_manifest_filename in
  let* _ :=
    for_each manifest_archive_versions
      (fun '(binary_package_name, binary_package_version) _ =>
         write archive_manifest_filename
               (binary_package_name +:+ Py.tab +:+ binary_package_version +:+ Py.nl))
      tt in
  for_each manifest_snapstore_versions
    (fun '(snap_name, snap_channel, snap_revision) _ =>
       write archive_manifest_filename
             ("snap:" +:+ snap_name +:+ Py.tab +:+ snap_channel +:+ Py.tab
              +:+ Json.str snap_revision +:+ Py.nl))
    tt.

(** The command (lines 247-279). [manifest] is the input file as the lines
    its iterator yields; the logging set-up of lines 256-259 has no effect
    on what follows and is left out. *)
Definition ubuntu_manifest_archive_diff (series : string)
    (manifest : list string) (architecture : string) (ppas : list string)
    (lp_user : option string) (archive_manifest_filename : string)
  : M unit :=
  let* (binary_package_names, snap_package_names) :=
    lift (parse_manifest manifest) in
  let* manifest_archive_versions :=
    get_archive_versions series binary_package_names architecture ppas lp_user in
  let* manifest_snapstore_versions :=
    _get_snapstore_versions snap_package_names architecture in
  let* _ := write_manifest archive_manifest_filename
                           manifest_archive_versions manifest_snapstore_versions in
  print ("Manifest written to " +:+ archive_manifest_filename +:+ ".").

End Script.

(** ** Debian version ordering *)

Module Debian.

(** Modelled from the spec: [debian_support.version_compare] belongs to the
    python-debian library and is not part of the repository; the resolver
    takes it from [Services].  This definition is the ordering the spec
    names: versions of the form [epoch:]upstream-version[-debian-revision],
    compared by epoch, then upstream version, then revision, each part by
    alternating runs of non-digits (where [~] sorts before everything,
    even the end of the part, and letters sort before other characters)
    and runs of digits (compared as numbers). *)

(** Weight of one character of a non-digit run; the end of the run weighs
    0. *)
Definition order (c : ascii) : Z :=
  if Ascii.eqb c "~"%char then (-1)%Z
  else if Py.isdigit c then (Z.of_nat (Py.ord c - 48) + 1)%Z
  else if Py.isalpha_ascii c then Z.of_nat (Py.ord c)
  else (Z.of_nat (Py.ord c) + 256)%Z.

(** Pair the items of two lists, the shorter one continued with [d]. *)
Definition zip_pad {A} (d : A) (la lb : list A) : list (A * A) :=
  let n := Nat.max (length la) (length lb) in
  combine (la ++ repeat d (n - length la)) (lb ++ repeat d (n - length lb)).

Fixpoint first_nonzero (l : list Z) : Z :=
  match l with
  | [] => 0%Z
  | x :: rest => if (x =? 0)%Z then first_nonzero rest else x
  end.

Definition cmp_string (va vb : string) : Z :=
  first_nonzero
    (map (fun ab => Z.sgn (fst ab - snd ab))
         (zip_pad 0%Z (map order (list_ascii_of_string va))
                      (map order (list_ascii_of_string vb)))).

(** The maximal runs of digits and of non-digits of a part. *)
Fixpoint runs (s : string) : list string :=
  match s with
  | "" => []
  | String c s' =>
      match runs s' with
      | String d r :: rs =>
          if Bool.eqb (Py.isdigit c) (Py.isdigit d)
          then String c (String d r) :: rs
          else String c "" :: String d r :: rs
      | _ => [String c ""]
      end
  end.

Definition starts_with_digit (s : string) : bool :=
  match s with
  | String c _ => Py.isdigit c
  | "" => false
  end.

Definition cmp_run (ab : string * string) : Z :=
  let '(a, b) := ab in
  if starts_with_digit a && starts_with_digit b
  then Z.sgn (Z.of_N (Py.int_digits a) - Z.of_N (Py.int_digits b))
  else cmp_string a b.

Definition cmp_part (va vb : string) : Z :=
  first_nonzero (map cmp_run (zip_pad "0" (runs va) (runs vb))).

(** The digits before a first colon are the epoch. *)
Fixpoint digit_prefix (s : string) : string * string :=
  match s with
  | String c s' =>
      if Py.isdigit c
      then let '(d, r) := digit_prefix s' in (String c d, r)
      else ("", s)
  | "" => ("", "")
  end.

Definition split_epoch (s : string) : N * string :=
  match digit_prefix s with
  | (String c d, String ":" (String x r)) =>
      (Py.int_digits (String c d), String x r)
  | _ => (0%N, s)
  end.

(** What follows the last hyphen is the revision. *)
Fixpoint split_last_hyphen (s : string) : option (string * string) :=
  match s with
  | "" => None
  | String c s' =>
      match split_last_hyphen s' with
      | Some (u, r) => Some (String c u, r)
      | None => if Ascii.eqb c "-"%char then Some ("", s') else None
      end
  end.

Definition split_revision (s : string) : string * string :=
  match split_last_hyphen s with
  | Some (String c u, String x r) => (String c u, String x r)
  | _ => (s, "0")
  end.

Definition version_char (c : ascii) : bool :=
  Py.isdigit c || Py.isalpha_ascii c
  || existsb (Ascii.eqb c) [("."%char); ("+"%char); (":"%char); ("~"%char); ("-"%char)].

Definition valid (s : string) : bool :=
  match s with
  | "" => false
  | _ => forallb version_char (list_ascii_of_string s)
  end.

Definition version_compare (a b : string) : outcome Z :=
  if valid a && valid b then
    let '(ea, ra) := split_epoch a in
    let '(eb, rb) := split_epoch b in
    let '(ua, da) := split_revision ra in
    let '(ub, db) := split_revision rb in
    if (ea <? eb)%N then Ok (-1)%Z
    else if (eb <? ea)%N then Ok 1%Z
    else let c := cmp_part ua ub in
         if (c =? 0)%Z then Ok (cmp_part da db) else Ok c
  else Raise ValueError.

End Debian.

(** ** Concrete services, for running the script on examples *)

Module Demo.

Definition publication (name version pocket : string) : BinaryPublication :=
  {| Publication.status := "Published";
     Publication.binary_package_name := name;
     Publication.binary_package_version := version;
     Publication.pocket := pocket |}.

(** The name and channel a refresh request asks for. *)
Definition requested (body : json) : string * string :=
  match getitem_key body "actions" with
  | Ok actions =>
      match getitem_index actions 0 with
      | Ok action =>
          match getitem_key action "name", getitem_key action "channel" with
          | Ok (JStr n), Ok (JStr c) => (n, c)
          | _, _ => ("", "")
          end
      | Raise _ => ("", "")
      end
  | Raise _ => ("", "")
  end.

(** Services built from three tables: the PPAs that exist, what an
    archive publishes for a name in a pocket, and what the store answers
    for a snap in a channel.  Every destination is writable. *)
Definition services_with
    (compare : string -> string -> outcome Z)
    (ppa : string -> string -> outcome link)
    (published : link -> string -> string -> outcome (list BinaryPublication))
    (store : string -> string -> outcome Response)
  : Services :=
  {| version_compare := compare;
     login_with := fun user => Ok ("launchpad/" +:+ user);
     login_anonymously := fun _ => Ok "launchpad";
     distributions := fun _ name => Ok name;
     getSeries := fun distribution series => Ok (distribution +:+ "/" +:+ series);
     getDistroArchSeries := fun series archtag => Ok (series +:+ "/" +:+ archtag);
     main_archive := fun distribution => distribution +:+ "/+archive/primary";
     people := fun _ owner => Ok ("~" +:+ owner);
     getPPAByName := ppa;
     getPublishedBinaries :=
       fun archive _ name _ pocket _ _ => published archive name pocket;
     requests_post := fun _ _ body => store (fst (requested body)) (snd (requested body));
     writable := fun _ => true |}.

Definition services := services_with Debian.version_compare.

(** A comparator that answers for every pair of strings: the order of the
    dictionary. *)
Definition dictionary_order (a b : string) : outcome Z :=
  Ok (match String.compare a b with
      | Lt => (-1)%Z
      | Eq => 0%Z
      | Gt => 1%Z
      end).

Definition no_ppa (owner name : string) : outcome link :=
  Raise (RemoteError "no such PPA").

Definition snap_answer (revision : Z) : Response :=
  {| ok := true;
     json_body :=
       Ok (JObj [("error-list", JList []);
                 ("results",
                  JList [JObj [("result", JStr "download");
                               ("snap", JObj [("revision", JInt revision)])]])]) |}.

Definition empty_world : World :=
  {| stdout := []; calls := []; files := ∅ |}.

End Demo.

(** ** Predicates on computations *)

(** A computation that leaves the files alone, whatever it returns. *)
Definition keeps_files {A} (m : M A) : Prop :=
  forall w, files (fst (m w)) = files w.

(** ** The manifest format, in the words of the specification *)

(** What a manifest line denotes. *)
Inductive ManifestEntry : Type :=
| BinaryPackageRef (name : string)
| SnapRef (name channel : string).

(** Removing a prefix, or a suffix, from a string that has it. *)
Definition strip_prefix (p s : string) : string :=
  if String.prefix p s
  then String.substring (String.length p) (String.length s - String.length p) s
  else s.

Definition ends_with (suffix s : string) : bool :=
  (String.length suffix <=? String.length s)%nat
  && String.eqb (String.substring (String.length s - String.length suffix)
                                  (String.length suffix) s)
                suffix.

Definition strip_suffix (suffix s : string) : string :=
  if ends_with suffix s
  then String.substring 0 (String.length s - String.length suffix) s
  else s.

(** One line: a line that contains [snap:] has three fields, the snap's name
    (after [normalize]), its channel and a version; any other line has two
    fields, the package's name and a version. *)
Definition entry_of_line (normalize : string -> string) (line : string)
  : outcome ManifestEntry :=
  if Py.contains "snap:" line then
    match Py.split (Py.strip line) with
    | [name; channel; _] => Ok (SnapRef (normalize name) channel)
    | _ => Raise ValueError
    end
  else
    match Py.split (Py.strip line) with
    | [name; _] => Ok (BinaryPackageRef name)
    | _ => Raise ValueError
    end.

Fixpoint entries_of (normalize : string -> string) (manifest : list string)
  : outcome (list ManifestEntry) :=
  match manifest with
  | [] => Ok []
  | line :: rest =>
      match entry_of_line normalize line with
      | Ok entry =>
          match entries_of normalize rest with
          | Ok entries => Ok (entry :: entries)
          | Raise e => Raise e
          end
      | Raise e => Raise e
      end
  end.

Fixpoint binary_refs (entries : list ManifestEntry) : list string :=
  match entries with
  | [] => []
  | BinaryPackageRef name :: rest => name :: binary_refs rest
  | SnapRef _ _ :: rest => binary_refs rest
  end.

Fixpoint snap_refs (entries : list ManifestEntry) : list (string * string) :=
  match entries with
  | [] => []
  | BinaryPackageRef _ :: rest => snap_refs rest
  | SnapRef name channel :: rest => (name, channel) :: snap_refs rest
  end.

(** The parser as the specification words it: the [snap:] prefix is stripped
    from the first field. *)
Definition parse_manifest_spec (manifest : list string)
  : outcome (list string * list (string * string)) :=
  match entries_of (strip_prefix "snap:") manifest with
  | Ok entries => Ok (binary_refs entries, snap_refs entries)
  | Raise e => Raise e
  end.

(** The name the specification has the resolver query: the given name
    without a trailing [:architecture]. *)
Definition normalized_name_spec (architecture name : string) : string :=
  strip_suffix (":" +:+ architecture) name.

(** Two computations that end the same way (same value or same exception),
    whatever the worlds they start in. *)
Definition same_outcome {A} (m1 m2 : M A) : Prop :=
  forall w1 w2, snd (m1 w1) = snd (m2 w2).

(** A computation that returns a value, in every world. *)
Definition returns {A} (m : M A) : Prop :=
  forall w, exists w' a, m w = (w', Ok a).

(** ** The output format, in the words of the specification *)

(** A text is the concatenation of its lines. *)
Definition text_of (lines : list string) : string :=
  fold_right String.append "" lines.

(** One line [name<TAB>max_version] per resolved binary package. *)
Definition binary_line (resolved : string * string) : string :=
  fst resolved +:+ Py.tab +:+ snd resolved +:+ Py.nl.

(** One line [snap:name<TAB>channel<TAB>revision] per resolved snap. *)
Definition snap_line (resolved : string * string * json) : string :=
  "snap:" +:+ fst (fst resolved) +:+ Py.tab +:+ snd (fst resolved) +:+ Py.tab
  +:+ Json.str (snd resolved) +:+ Py.nl.

(** The world after [text] has been stored at [path]. *)
Definition with_file (path text : string) (w : World) : World :=
  {| stdout := stdout w; calls := calls w; files := <[path := text]> (files w) |}.

(** ** The query plan, in the words of the specification *)

(** The queries for published binaries among the remote calls. *)
Definition is_query (c : Call) : bool :=
  match c with
  | GetPublishedBinaries _ _ _ _ _ _ _ => true
  | _ => false
  end.

Definition queries (cs : list Call) : list Call := List.filter is_query cs.

(** An exact-match query for [name] in a pocket of an archive, for the given
    architecture series, status Published, ordered by date. *)
Definition exact_query (name : string) (das : link) (target : link * string) : Call :=
  GetPublishedBinaries (fst target) true name das (snd target) true "Published".


(** The archive that a supplementary repository [owner/name] denotes. *)
Definition ppa_archive `{Services} (launchpad : link) (ppa : string) : outcome link :=
  match unpack2 (Py.split_on "/" ppa) with
  | Ok (owner, name) =>
      match people launchpad owner with
      | Ok person => getPPAByName person name
      | Raise e => Raise e
      end
  | Raise e => Raise e
  end.

(** Where the resolver looks, in order: every supplementary repository under
    pocket Release, then the main archive under Updates, Security, Release. *)
Definition query_plan (ppa_archives : list link) (main : link) : list (link * string) :=
  map (fun archive => (archive, "Release")) ppa_archives
  ++ [(main, "Updates"); (main, "Security"); (main, "Release")].

(** ** Example runs *)

Module Scenario.

(** The archive publishes bash 5.1-6ubuntu1 in every pocket, and libfoo and
    golang-foo-dev in pocket Release only; the store has revision 1234 of
    every snap. *)
Definition published (archive name pocket : string)
  : outcome (list BinaryPublication) :=
  if String.eqb name "bash"
  then Ok [Demo.publication "bash" "5.1-6ubuntu1" pocket]
  else if String.eqb name "libfoo" && String.eqb pocket "Release"
  then Ok [Demo.publication "libfoo" "1.0-1" pocket]
  else if String.eqb name "golang-foo-dev" && String.eqb pocket "Release"
  then Ok [Demo.publication "golang-foo-dev" "0.0~git20200101.1a2b3c-1" pocket]
  else Ok [].

Definition store (name channel : string) : outcome Response :=
  Ok (Demo.snap_answer 1234).

Definition services : Services := Demo.services Demo.no_ppa published store.

(** The same, with one supplementary repository that publishes a newer
    bash. *)
Definition ppa (person name : string) : outcome link :=
  if String.eqb person "~owner" && String.eqb name "ppa"
  then Ok "~owner/+archive/ppa"
  else Raise (RemoteError "no such PPA").

Definition published_with_ppa (archive name pocket : string)
  : outcome (list BinaryPublication) :=
  if String.eqb archive "~owner/+archive/ppa" then
    if String.eqb name "bash"
    then Ok [Demo.publication "bash" "5.2-1~ppa1" pocket]
    else Ok []
  else published archive name pocket.


Definition services_dictionary_order : Services :=
  Demo.services_with Demo.dictionary_order ppa published_with_ppa store.

(** The same repository, answering every query with an error. *)
Definition published_failing_ppa (archive name pocket : string)
  : outcome (list BinaryPublication) :=
  if String.eqb archive "~owner/+archive/ppa"
  then Raise (RemoteError "service unavailable")
  else published archive name pocket.

Definition services_failing_ppa : Services :=
  Demo.services ppa published_failing_ppa store.

(** The same repository, publishing nothing. *)
Definition published_empty_ppa (archive name pocket : string)
  : outcome (list BinaryPublication) :=
  if String.eqb archive "~owner/+archive/ppa"
  then Ok []
  else published archive name pocket.

Definition services_empty_ppa : Services :=
  Demo.services ppa published_empty_ppa store.

Definition empty_results : Response :=
  {| ok := true;
     json_body := Ok (JObj [("error-list", JList []); ("results", JList [])]) |}.

(** A store that refuses core18, answers core20 with an empty result list
    and has revision 1234 of everything else. *)
Definition store_with_gaps (name channel : string) : outcome Response :=
  if String.eqb name "core18"
  then Ok {| ok := false; json_body := Raise (RemoteError "not JSON") |}
  else if String.eqb name "core20"
  then Ok empty_results
  else Ok (Demo.snap_answer 1234).

Definition services_with_gaps : Services :=
  Demo.services Demo.no_ppa published store_with_gaps.

(** The manifest of the specification's end-to-end scenario. *)
Definition manifest : list string :=
  ["bash 5.0-6" +:+ Py.nl; "snap:core20 stable 1100" +:+ Py.nl].

End Scenario.

(** ** Fields and lines *)

(** A string without white space; a field is such a string that is not
    empty; a blank line has white space only. *)
Fixpoint no_space (s : string) : bool :=
  match s with
  | "" => true
  | String c s' => negb (Py.isspace c) && no_space s'
  end.

Definition is_field (s : string) : bool :=
  match s with
  | "" => false
  | _ => no_space s
  end.

Fixpoint blank (s : string) : bool :=
  match s with
  | "" => true
  | String c s' => Py.isspace c && blank s'
  end.


(** What an entry of the manifest is made of: the name of a binary package
    is a field; the name of a snap has no white space and its channel is a
    field. *)
Definition entry_fields (entry : ManifestEntry) : bool :=
  match entry with
  | BinaryPackageRef name => is_field name
  | SnapRef name channel => no_space name && is_field channel
  end.

(** ** Reading the output back *)

(** A resolved binary package whose line reads back as it was written: name
    and version are fields and neither contains [snap:]. *)
Definition reads_back_binary (resolved : string * string) : bool :=
  is_field (fst resolved) && is_field (snd resolved)
  && negb (Py.contains "snap:" (fst resolved))
  && negb (Py.contains "snap:" (snd resolved)).

(** A resolved snap whose line reads back as it was written: the name has no
    white space and does not contain [snap:], the channel and the revision,
    as printed, are fields. *)
Definition reads_back_snap (resolved : string * string * json) : bool :=
  no_space (fst (fst resolved)) && is_field (snd (fst resolved))
  && is_field (Json.str (snd resolved))
  && negb (Py.contains "snap:" (fst (fst resolved))).

(** ** What the store says about a snap *)

(** [body['results'][0]['snap']['revision']]. *)
Definition revision_of (body : json) : outcome json :=
  match getitem_key body "results" with
  | Ok results =>
      match getitem_index results 0 with
      | Ok result0 =>
          match getitem_key result0 "snap" with
          | Ok snap_info => getitem_key snap_info "revision"
          | Raise e => Raise e
          end
      | Raise e => Raise e
      end
  | Raise e => Raise e
  end.

(** The refresh request for a snap. *)
Definition snap_request (architecture : string) (snap : string * string) : Call :=
  Post SNAP_REFRESH_URL (snap_request_headers architecture)
       (snap_request_data (fst snap) (snd snap)).

(** The store's answer for a snap: no revision when the response is not a
    success, the revision of the first result when it is, or an exception
    (from the request, from the body, or from a body of another shape). *)
Definition store_answer `{Services} (architecture : string) (snap : string * string)
  : outcome (option json) :=
  match requests_post SNAP_REFRESH_URL (snap_request_headers architecture)
                      (snap_request_data (fst snap) (snd snap)) with
  | Raise e => Raise e
  | Ok response =>
      if negb (ok response) then Ok None
      else match json_body response with
           | Raise e => Raise e
           | Ok body =>
               match revision_of body with
               | Ok revision => Ok (Some revision)
               | Raise e => Raise e
               end
           end
  end.

(** The entries for the snaps that have a revision. *)
Fixpoint resolved_snaps (snaps : list (string * string)) (answers : list (option json))
  : list (string * string * json) :=
  match snaps, answers with
  | snap :: snaps', Some revision :: answers' =>
      (fst snap, snd snap, revision) :: resolved_snaps snaps' answers'
  | _ :: snaps', None :: answers' => resolved_snaps snaps' answers'
  | _, _ => []
  end.

Module Outage.

(** A store that cannot be reached for core20 and has revision 1234 of
    everything else. *)
Definition store (name channel : string) : outcome Response :=
  if String.eqb name "core20"
  then Raise (RemoteError "connection refused")
  else Ok (Demo.snap_answer 1234).

Definition services : Services :=
  Demo.services Demo.no_ppa Scenario.published store.

(** Services under which no destination can be opened for writing. *)
Definition read_only_services : Services :=
  {| version_compare := Debian.version_compare;
     login_with := @login_with Scenario.services;
     login_anonymously := @login_anonymously Scenario.services;
     distributions := @distributions Scenario.services;
     getSeries := @getSeries Scenario.services;
     getDistroArchSeries := @getDistroArchSeries Scenario.services;
     main_archive := @main_archive Scenario.services;
     people := @people Scenario.services;
     getPPAByName := @getPPAByName Scenario.services;
     getPublishedBinaries := @getPublishedBinaries Scenario.services;
     requests_post := @requests_post Scenario.services;
     writable := fun _ => false |}.

(** Services whose Launchpad knows no series. *)
Definition no_series_services : Services :=
  {| version_compare := Debian.version_compare;
     login_with := @login_with Scenario.services;
     login_anonymously := @login_anonymously Scenario.services;
     distributions := @distributions Scenario.services;
     getSeries := fun _ _ => Raise (RemoteError "no such series");
     getDistroArchSeries := @getDistroArchSeries Scenario.services;
     main_archive := @main_archive Scenario.services;
     people := @people Scenario.services;
     getPPAByName := @getPPAByName Scenario.services;
     getPublishedBinaries := @getPublishedBinaries Scenario.services;
     requests_post := @requests_post Scenario.services;
     writable := @writable Scenario.services |}.

End Outage.

(** ** The calls of a run *)

(** How the resolver logs in (lines 125-134), and the answer it gets. *)
Definition login_call (lp_user : option string) : Call :=
  if truthy lp_user
  then LoginWith (default "" lp_user) "production" "devel"
  else LoginAnonymously "ubuntu-manifest-archive-diff" "production" "devel".

Definition login_answer `{Services} (lp_user : option string) : outcome link :=
  if truthy lp_user
  then login_with (default "" lp_user)
  else login_anonymously "ubuntu-manifest-archive-diff".

(** The world after some more remote calls. *)
Definition after_calls (cs : list Call) (w : World) : World :=
  {| stdout := stdout w; calls := calls w ++ cs; files := files w |}.



(** A computation all of whose remote calls satisfy [P]. *)
Definition calls_only (P : Call -> bool) {A} (m : M A) : Prop :=
  forall w, exists cs, calls (fst (m w)) = calls w ++ cs /\ Forall (fun c => P c = true) cs.

(** What the comparator of the example services answers, as a number. *)
Definition debian_cmp (a b : string) : Z :=
  match Debian.version_compare a b with
  | Ok c => c
  | Raise _ => 0%Z
  end.

(** ** Joining the outcomes of two resolutions *)

(** Two lists resolved one after the other: the first exception, or the two
    results joined. *)
Definition joined {A} (r1 r2 : outcome (list A)) : outcome (list A) :=
  match r1, r2 with
  | Ok l1, Ok l2 => Ok (l1 ++ l2)
  | Ok _, Raise e => Raise e
  | Raise e, _ => Raise e
  end.

(** * Properties *)

(** ** The primitives on examples *)

Example split_fields : Py.split (Py.strip (" bash   5.0-6" +:+ Py.nl)) = ["bash"; "5.0-6"].
Proof. reflexivity. Qed.

Example split_blank_line : Py.split (Py.strip Py.nl) = [].
Proof. reflexivity. Qed.

Example split_on_slash : Py.split_on "/" "owner//ppa" = ["owner"; ""; "ppa"].
Proof. reflexivity. Qed.

Example replace_every_occurrence : Py.replace "snap:snap:core" "snap:" "" = "core".
Proof. reflexivity. Qed.

Example replace_without_overlap : Py.replace "aaaaa" "aa" "b" = "bba".
Proof. reflexivity. Qed.

Example replace_empty_pattern : Py.replace "abc" "" "-" = "-a-b-c-".
Proof. reflexivity. Qed.

Example contains_inside : Py.contains "snap:" "core snap:x 1" = true.
Proof. reflexivity. Qed.

Example str_of_revision : Json.str (JInt 6130) = "6130".
Proof. reflexivity. Qed.

Example str_of_list :
  Json.str (JList [JStr "a"; JInt 3; JNull; JObj [("k", JBool true)]])
  = "['a', 3, None, {'k': True}]".
Proof. reflexivity. Qed.

Example index_of_empty_results :
  getitem_index (JList []) 0 = Raise IndexError.
Proof. reflexivity. Qed.

Example debian_order :
  map (fun ab => Debian.version_compare (fst ab) (snd ab))
      [("5.1-6ubuntu1", "5.1-6ubuntu1.1"); ("2.10", "2.9"); ("1:0.1", "5.1");
       ("1.0~rc1", "1.0"); ("1.0", "1.0-0"); ("1.0a", "1.0+b1")]
  = [Ok (-1)%Z; Ok 1%Z; Ok 1%Z; Ok (-1)%Z; Ok 0%Z; Ok (-1)%Z].
Proof. reflexivity. Qed.

(** The end-to-end scenario of the specification. *)
Example end_to_end :
  let run := @ubuntu_manifest_archive_diff Scenario.services "focal"
               Scenario.manifest "amd64" [] None "archive.manifest"
               Demo.empty_world in
  snd run = Ok tt
  /\ files (fst run) !! "archive.manifest"
     = Some ("bash" +:+ Py.tab +:+ "5.1-6ubuntu1" +:+ Py.nl
             +:+ "snap:core20" +:+ Py.tab +:+ "stable" +:+ Py.tab +:+ "1234" +:+ Py.nl).
Proof. split; vm_compute; reflexivity. Qed.

(** ** The monad *)

Section MonadFacts.

Context {A B : Type}.

Lemma bind_Ok_inv (m : M A) (k : A -> M B) w w' b :
  bind m k w = (w', Ok b) ->
  exists w1 a, m w = (w1, Ok a) /\ k a w1 = (w', Ok b).
Proof.
  unfold bind. destruct (m w) as [w1 [a | e]]; intros Hk.
  - exists w1, a. split; [reflexivity | exact Hk].
  - discriminate.
Qed.

Lemma bind_Ok (m : M A) (k : A -> M B) w w1 a :
  m w = (w1, Ok a) -> bind m k w = k a w1.
Proof. unfold bind. intros ->. reflexivity. Qed.

Lemma bind_Raise (m : M A) (k : A -> M B) w w1 e :
  m w = (w1, Raise e) -> bind m k w = (w1, Raise e).
Proof. unfold bind. intros ->. reflexivity. Qed.

End MonadFacts.

Lemma bind_Raise_snd {A B} (m : M A) (k : A -> M B) w e :
  snd (m w) = Raise e -> snd (bind m k w) = Raise e.
Proof.
  unfold bind. destruct (m w) as [w1 [a | e']]; simpl; intros He.
  - discriminate.
  - injection He as ->. reflexivity.
Qed.

Lemma for_each_app {A S} (xs ys : list A) (body : A -> S -> M S) (s : S) w :
  for_each (xs ++ ys) body s w
  = bind (for_each xs body s) (fun s' => for_each ys body s') w.
Proof.
  revert s w. induction xs as [| x xs IH]; intros s w; simpl.
  - reflexivity.
  - unfold bind. destruct (body x s w) as [w1 [s1 | e]].
    + rewrite IH. reflexivity.
    + reflexivity.
Qed.

Lemma keeps_files_ret {A} (a : A) : keeps_files (ret a).
Proof. intros w. reflexivity. Qed.

Lemma keeps_files_lift {A} (r : outcome A) : keeps_files (lift r).
Proof. intros w. reflexivity. Qed.

Lemma keeps_files_print s : keeps_files (print s).
Proof. intros w. reflexivity. Qed.

Lemma keeps_files_remote {A} c (r : outcome A) : keeps_files (remote c r).
Proof. intros w. reflexivity. Qed.

Lemma keeps_files_bind {A B} (m : M A) (k : A -> M B) :
  keeps_files m -> (forall a, keeps_files (k a)) -> keeps_files (bind m k).
Proof.
  intros Hm Hk w. unfold bind. specialize (Hm w).
  destruct (m w) as [w1 [a | e]]; simpl in *.
  - rewrite Hk. exact Hm.
  - exact Hm.
Qed.

Lemma keeps_files_for_each {A S} (xs : list A) (body : A -> S -> M S) s :
  (forall x s, keeps_files (body x s)) -> keeps_files (for_each xs body s).
Proof.
  intros Hbody. revert s. induction xs as [| x xs IH]; intros s; simpl.
  - apply keeps_files_ret.
  - apply keeps_files_bind; [apply Hbody | exact IH].
Qed.

Ltac keeps_files_step :=
  first
    [ apply keeps_files_ret | apply keeps_files_lift | apply keeps_files_print
    | apply keeps_files_remote
    | apply keeps_files_bind; [| intros ?]
    | apply keeps_files_for_each; intros ? ?
    | match goal with
      | |- keeps_files (let (_, _) := ?p in _) => destruct p
      | |- keeps_files (if ?b then _ else _) => destruct b
      | |- keeps_files (match ?l with [] => _ | _ :: _ => _ end) => destruct l
      end ].

Ltac keeps_files := repeat keeps_files_step.

Section ResolversKeepFiles.

Context `{Services}.

Lemma snapstore_versions_keep_files snaps architecture :
  keeps_files (_get_snapstore_versions snaps architecture).
Proof. unfold _get_snapstore_versions, snapstore_version. keeps_files. Qed.

Lemma find_max_version_keeps_files found : keeps_files (find_max_version found).
Proof. unfold find_max_version. keeps_files. Qed.

Lemma versions_found_keep_files launchpad ubuntu das ppas name :
  keeps_files (versions_found_in_archive launchpad ubuntu das ppas name).
Proof.
  unfold versions_found_in_archive, ppa_versions, pocket_versions,
    _get_binary_packages.
  keeps_files.
Qed.

Lemma archive_versions_keep_files series names architecture ppas lp_user :
  keeps_files (get_archive_versions series names architecture ppas lp_user).
Proof.
  unfold get_archive_versions, archive_version.
  keeps_files;
    auto using versions_found_keep_files, find_max_version_keeps_files.
Qed.

End ResolversKeepFiles.

(** ** The stages of a run *)

Section Stages.

Context `{Services}.

(** C4. The run is staged: a manifest that does not parse ends the run in
    the world it started in; an error in the archive resolver or in the
    snap resolver ends it with the files untouched; the writer runs only
    in the world both resolvers have left, with the files still as they
    were at the start. *)
Theorem no_output_before_both_resolvers
    series manifest architecture ppas lp_user archive_manifest_filename w :
  let run := ubuntu_manifest_archive_diff series manifest architecture ppas
               lp_user archive_manifest_filename in
  match parse_manifest manifest with
  | Raise e => run w = (w, Raise e)
  | Ok (binary_package_names, snap_package_names) =>
      match get_archive_versions series binary_package_names architecture
              ppas lp_user w with
      | (w1, Raise e) => run w = (w1, Raise e) /\ files w1 = files w
      | (w1, Ok versions) =>
          match _get_snapstore_versions snap_package_names architecture w1 with
          | (w2, Raise e) => run w = (w2, Raise e) /\ files w2 = files w
          | (w2, Ok revisions) =>
              files w2 = files w
              /\ run w
                 = bind (write_manifest archive_manifest_filename versions revisions)
                        (fun _ => print ("Manifest written to "
                                         +:+ archive_manifest_filename +:+ "."))
                        w2
          end
      end
  end.
Proof.
  intros run. subst run. unfold ubuntu_manifest_archive_diff.
  destruct (parse_manifest manifest) as [[names snaps] | e]; [| reflexivity].
  rewrite (bind_Ok _ _ w w (names, snaps)) by reflexivity.
  pose proof (archive_versions_keep_files series names architecture ppas lp_user w)
    as Harchive.
  destruct (get_archive_versions series names architecture ppas lp_user w)
    as [w1 [versions | e]] eqn:Hversions; simpl in Harchive.
  2:{ split; [| exact Harchive]. apply (bind_Raise _ _ _ _ _ Hversions). }
  rewrite (bind_Ok _ _ _ _ _ Hversions).
  pose proof (snapstore_versions_keep_files snaps architecture w1) as Hsnap.
  destruct (_get_snapstore_versions snaps architecture w1)
    as [w2 [revisions | e]] eqn:Hrevisions; simpl in Hsnap.
  - split; [congruence |]. rewrite (bind_Ok _ _ _ _ _ Hrevisions). reflexivity.
  - split; [| congruence]. apply (bind_Raise _ _ _ _ _ Hrevisions).
Qed.

End Stages.

(** ** One pair per package *)

Section OnePairPerName.

Context `{Services}.

Lemma archive_version_appends launchpad ubuntu das architecture ppas name acc w w' acc' :
  archive_version launchpad ubuntu das architecture ppas name acc w = (w', Ok acc') ->
  exists v, acc' = acc ++ [(Py.replace name (":" +:+ architecture) "", v)].
Proof.
  unfold archive_version. intros Hrun.
  apply bind_Ok_inv in Hrun as (w1 & found & _ & Hrun).
  apply bind_Ok_inv in Hrun as (w2 & v & _ & Hrun).
  apply bind_Ok_inv in Hrun as (w3 & [] & _ & Hrun).
  exists v. unfold ret in Hrun. congruence.
Qed.

Lemma archive_versions_names launchpad ubuntu das architecture ppas names :
  forall acc w w' versions,
    for_each names (archive_version launchpad ubuntu das architecture ppas) acc w
    = (w', Ok versions) ->
    map fst versions
    = map fst acc ++ map (fun name => Py.replace name (":" +:+ architecture) "") names.
Proof.
  induction names as [| name names IH]; intros acc w w' versions Hrun; simpl in Hrun.
  - unfold ret in Hrun. inversion Hrun; subst. simpl. rewrite app_nil_r. reflexivity.
  - apply bind_Ok_inv in Hrun as (w1 & acc1 & Hone & Hrest).
    apply archive_version_appends in Hone as [v ->].
    apply IH in Hrest. rewrite Hrest, map_app, <- app_assoc. reflexivity.
Qed.

(** C10. When the archive resolver returns, its list has one pair for each
    input name, in input order, and the name in each pair is the input name
    with the architecture qualifier removed. *)
Theorem one_pair_per_name series names architecture ppas lp_user w w' versions :
  get_archive_versions series names architecture ppas lp_user w = (w', Ok versions) ->
  length versions = length names
  /\ map fst versions
     = map (fun name => Py.replace name (":" +:+ architecture) "") names.
Proof.
  unfold get_archive_versions. intros Hrun.
  apply bind_Ok_inv in Hrun as (w1 & launchpad & _ & Hrun).
  apply bind_Ok_inv in Hrun as (w2 & ubuntu & _ & Hrun).
  apply bind_Ok_inv in Hrun as (w3 & lp_series & _ & Hrun).
  apply bind_Ok_inv in Hrun as (w4 & das & _ & Hrun).
  apply archive_versions_names in Hrun. simpl in Hrun.
  split; [| exact Hrun].
  rewrite <- (length_map fst versions), Hrun, length_map. reflexivity.
Qed.

End OnePairPerName.

(** A package found in the archive under a qualified name, and one that is
    not published at all. *)
Lemma one_pair_per_name_witness :
  @get_archive_versions Scenario.services "focal" ["bash:amd64"; "nothing"]
    "amd64" [] None Demo.empty_world
  = (fst (@get_archive_versions Scenario.services "focal" ["bash:amd64"; "nothing"]
            "amd64" [] None Demo.empty_world),
     Ok [("bash", "5.1-6ubuntu1"); ("nothing", "0.0.0")])
  /\ (length [("bash", "5.1-6ubuntu1"); ("nothing", "0.0.0")]
      = length ["bash:amd64"; "nothing"]
      /\ map fst [("bash", "5.1-6ubuntu1"); ("nothing", "0.0.0")]
         = map (fun name => Py.replace name (":" +:+ "amd64") "")
               ["bash:amd64"; "nothing"]).
Proof.
  assert (Hrun :
    @get_archive_versions Scenario.services "focal" ["bash:amd64"; "nothing"]
      "amd64" [] None Demo.empty_world
    = (fst (@get_archive_versions Scenario.services "focal" ["bash:amd64"; "nothing"]
              "amd64" [] None Demo.empty_world),
       Ok [("bash", "5.1-6ubuntu1"); ("nothing", "0.0.0")])).
  { vm_compute. reflexivity. }
  split; [exact Hrun |].
  exact (@one_pair_per_name Scenario.services _ _ _ _ _ _ _ _ Hrun).
Defined.

(** ** The manifest writer *)

Lemma append_cons c (s t : string) : String c s +:+ t = String c (s +:+ t).
Proof. reflexivity. Qed.

Lemma append_nil_l (s : string) : "" +:+ s = s.
Proof. reflexivity. Qed.

Lemma append_nil_r (s : string) : s +:+ "" = s.
Proof.
  induction s as [| c s IH]; [reflexivity |].
  rewrite append_cons, IH. reflexivity.
Qed.

Lemma append_assoc (s t u : string) : (s +:+ t) +:+ u = s +:+ t +:+ u.
Proof.
  induction s as [| c s IH]; [reflexivity |].
  rewrite !append_cons, IH. reflexivity.
Qed.

Lemma text_of_app (l1 l2 : list string) :
  text_of (l1 ++ l2) = text_of l1 +:+ text_of l2.
Proof.
  induction l1 as [| l l1 IH]; simpl; [reflexivity |].
  rewrite IH, append_assoc. reflexivity.
Qed.

Lemma for_each_ext {A S} (xs : list A) (body1 body2 : A -> S -> M S) s w :
  (forall x s w, body1 x s w = body2 x s w) ->
  for_each xs body1 s w = for_each xs body2 s w.
Proof.
  intros Hbody. revert s w. induction xs as [| x xs IH]; intros s w; simpl.
  - reflexivity.
  - unfold bind. rewrite Hbody. destruct (body2 x s w) as [w1 [s1 | e]]; auto.
Qed.

(** Writing one line per item appends the lines, in order, to the file. *)
Lemma write_lines {A} (line : A -> string) path (xs : list A) :
  forall text w,
    files w !! path = Some text ->
    for_each xs (fun x _ => write path (line x)) tt w
    = (with_file path (text +:+ text_of (map line xs)) w, Ok tt).
Proof.
  induction xs as [| x xs IH]; intros text w Hfile; simpl.
  - unfold ret, with_file. rewrite append_nil_r, (insert_id _ _ _ Hfile).
    destruct w; reflexivity.
  - unfold bind, write at 1. rewrite Hfile. simpl.
    erewrite IH by (simpl; apply lookup_insert_eq).
    unfold with_file. simpl. rewrite insert_insert_eq, append_assoc. reflexivity.
Qed.

(** C6. The writer stores at the destination the lines of the resolved
    binary packages, in the order of the list, followed by the lines of the
    resolved snaps, in the order of the list, and changes nothing else. *)
Theorem write_manifest_format `{Services} path versions revisions w :
  writable path = true ->
  write_manifest path versions revisions w
  = (with_file path (text_of (map binary_line versions ++ map snap_line revisions)) w,
     Ok tt).
Proof.
  intros Hwritable. unfold write_manifest.
  assert (Hopen : open_w path w = (with_file path "" w, Ok tt)).
  { unfold open_w. rewrite Hwritable. reflexivity. }
  rewrite (bind_Ok _ _ _ _ _ Hopen).
  assert (Hbinaries :
    for_each versions
      (fun '(binary_package_name, binary_package_version) (_ : unit) =>
         write path (binary_package_name +:+ Py.tab +:+ binary_package_version +:+ Py.nl))
      tt (with_file path "" w)
    = (with_file path (text_of (map binary_line versions)) w, Ok tt)).
  { rewrite (for_each_ext _ _ (fun x _ => write path (binary_line x)))
      by (intros [n v] [] ?; reflexivity).
    rewrite (write_lines binary_line path versions "")
      by (simpl; apply lookup_insert_eq).
    unfold with_file. simpl. rewrite insert_insert_eq. reflexivity. }
  rewrite (bind_Ok _ _ _ _ _ Hbinaries).
  rewrite (for_each_ext _ _ (fun x _ => write path (snap_line x)))
    by (intros [[n c] r] [] ?; reflexivity).
  rewrite (write_lines snap_line path revisions (text_of (map binary_line versions)))
    by (simpl; apply lookup_insert_eq).
  unfold with_file. simpl. rewrite insert_insert_eq, text_of_app. reflexivity.
Qed.

(** The two lines of the specification's example. *)
Lemma write_manifest_format_witness :
  @writable Scenario.services "archive.manifest" = true
  /\ @write_manifest Scenario.services "archive.manifest"
       [("bash", "5.1-6ubuntu1")] [("core20", "stable", JInt 1234)] Demo.empty_world
     = (with_file "archive.manifest"
          ("bash" +:+ Py.tab +:+ "5.1-6ubuntu1" +:+ Py.nl
           +:+ "snap:core20" +:+ Py.tab +:+ "stable" +:+ Py.tab +:+ "1234" +:+ Py.nl)
          Demo.empty_world,
        Ok tt).
Proof.
  split; [reflexivity |].
  exact (@write_manifest_format Scenario.services "archive.manifest"
           [("bash", "5.1-6ubuntu1")] [("core20", "stable", JInt 1234)]
           Demo.empty_world eq_refl).
Defined.

(** ** The query plan *)




(** The loop over the publications of one answer prints one line for each
    and appends their versions. *)
Lemma collect_versions (msg : BinaryPublication -> string) binaries :
  forall found w,
    for_each binaries
      (fun binary found =>
         let* _ := print (msg binary) in
         ret (found ++ [Publication.binary_package_version binary]))
      found w
    = ({| stdout := stdout w ++ map msg binaries; calls := calls w; files := files w |},
       Ok (found ++ map Publication.binary_package_version binaries)).
Proof.
  induction binaries as [| b binaries IH]; intros found w; simpl.
  - unfold ret. rewrite !app_nil_r. destruct w; reflexivity.
  - unfold bind at 1. unfold bind at 1. unfold print at 1, ret at 1. simpl.
    rewrite IH. simpl. rewrite <- !app_assoc. reflexivity.
Qed.

Section QueryPlan.

Context `{Services}.





End QueryPlan.


(** ** Outcomes that do not depend on the world *)

Lemma same_outcome_ret {A} (a : A) : same_outcome (ret a) (ret a).
Proof. intros w1 w2. reflexivity. Qed.

Lemma same_outcome_lift {A} (r : outcome A) : same_outcome (lift r) (lift r).
Proof. intros w1 w2. reflexivity. Qed.

Lemma same_outcome_print s : same_outcome (print s) (print s).
Proof. intros w1 w2. reflexivity. Qed.

Lemma same_outcome_remote {A} c (r : outcome A) : same_outcome (remote c r) (remote c r).
Proof. intros w1 w2. reflexivity. Qed.

Lemma same_outcome_bind {A B} (m1 m2 : M A) (k1 k2 : A -> M B) :
  same_outcome m1 m2 -> (forall a, same_outcome (k1 a) (k2 a)) ->
  same_outcome (bind m1 k1) (bind m2 k2).
Proof.
  intros Hm Hk w1 w2. unfold bind. specialize (Hm w1 w2).
  destruct (m1 w1) as [w1' [a1 | e1]], (m2 w2) as [w2' [a2 | e2]];
    simpl in Hm; inversion Hm; subst; [apply Hk | reflexivity].
Qed.

Lemma same_outcome_for_each {A S} (xs : list A) (body1 body2 : A -> S -> M S) :
  (forall x s, same_outcome (body1 x s) (body2 x s)) ->
  forall s, same_outcome (for_each xs body1 s) (for_each xs body2 s).
Proof.
  intros Hbody. induction xs as [| x xs IH]; intros s; simpl.
  - apply same_outcome_ret.
  - apply same_outcome_bind; [apply Hbody | exact IH].
Qed.

Lemma same_outcome_trans {A} (m1 m2 m3 : M A) :
  same_outcome m1 m2 -> same_outcome m2 m3 -> same_outcome m1 m3.
Proof.
  intros H12 H23 w1 w3. rewrite (H12 w1 w1). apply H23.
Qed.

(** A step that returns its argument unchanged can be dropped. *)
Lemma same_outcome_skip {A B} (m : M A) (a : A) (k : A -> M B) :
  (forall w, snd (m w) = Ok a) -> same_outcome (k a) (k a) ->
  same_outcome (bind m k) (k a).
Proof.
  intros Hm Hk w1 w2. unfold bind. specialize (Hm w1).
  destruct (m w1) as [w1' [a' | e]]; simpl in Hm; inversion Hm; subst. apply Hk.
Qed.

Ltac same_outcome_step :=
  first
    [ apply same_outcome_ret | apply same_outcome_lift | apply same_outcome_print
    | apply same_outcome_remote
    | apply same_outcome_bind; [| intros ?]
    | apply same_outcome_for_each; intros ? ?
    | match goal with
      | |- same_outcome (let (_, _) := ?p in _) _ => destruct p
      | |- same_outcome (if ?b then _ else _) _ => destruct b
      | |- same_outcome (match ?l with [] => _ | _ :: _ => _ end) _ => destruct l
      end ].

Ltac same_outcome := repeat same_outcome_step.

(** Dropping an item whose step changes nothing. *)
Lemma for_each_skip {A S} (before after : list A) (x : A) (body : A -> S -> M S) :
  (forall y s, same_outcome (body y s) (body y s)) ->
  (forall s w, snd (body x s w) = Ok s) ->
  forall s, same_outcome (for_each (before ++ x :: after) body s)
                         (for_each (before ++ after) body s).
Proof.
  intros Hbody Hskip s w1 w2. rewrite !for_each_app.
  apply same_outcome_bind.
  - apply same_outcome_for_each, Hbody.
  - intros s'. simpl. apply same_outcome_skip; [apply Hskip |].
    apply same_outcome_for_each, Hbody.
Qed.

(** ** The snap resolver *)

Section SnapResolver.

Context `{Services}.

Lemma snapstore_version_same_outcome architecture snap acc :
  same_outcome (snapstore_version architecture snap acc)
               (snapstore_version architecture snap acc).
Proof. unfold snapstore_version. same_outcome. Qed.

(** An empty result list in a successful answer raises [IndexError]. *)
Lemma snapstore_version_empty_results architecture snap_name snap_channel
    response body resolved w :
  requests_post SNAP_REFRESH_URL (snap_request_headers architecture)
                (snap_request_data snap_name snap_channel) = Ok response ->
  ok response = true ->
  json_body response = Ok body ->
  getitem_key body "results" = Ok (JList []) ->
  snd (snapstore_version architecture (snap_name, snap_channel) resolved w)
  = Raise IndexError.
Proof.
  intros Hpost Hok Hbody Hresults.
  unfold snapstore_version, bind, remote, lift.
  rewrite Hpost, Hok. simpl. rewrite Hbody, Hresults. reflexivity.
Qed.

(** C9. When the manifest lists a snap for which the store answers with
    success and an empty result list, and the run gets as far as that snap,
    indexing the first result raises [IndexError]: the run ends with that
    exception and no file has been written. *)
Theorem empty_results_abort_the_run
    series manifest architecture ppas lp_user archive_manifest_filename
    names before snap_name snap_channel after response body
    w w1 versions w2 revisions :
  parse_manifest manifest = Ok (names, before ++ (snap_name, snap_channel) :: after) ->
  get_archive_versions series names architecture ppas lp_user w = (w1, Ok versions) ->
  _get_snapstore_versions before architecture w1 = (w2, Ok revisions) ->
  requests_post SNAP_REFRESH_URL (snap_request_headers architecture)
                (snap_request_data snap_name snap_channel) = Ok response ->
  ok response = true ->
  json_body response = Ok body ->
  getitem_key body "results" = Ok (JList []) ->
  exists w3,
    ubuntu_manifest_archive_diff series manifest architecture ppas lp_user
      archive_manifest_filename w = (w3, Raise IndexError)
    /\ files w3 = files w.
Proof.
  intros Hparse Hversions Hbefore Hpost Hok Hbody Hresults.
  pose proof (archive_versions_keep_files series names architecture ppas lp_user w)
    as Hfiles1.
  rewrite Hversions in Hfiles1. simpl in Hfiles1.
  pose proof (snapstore_versions_keep_files
                (before ++ (snap_name, snap_channel) :: after) architecture w1)
    as Hfiles2.
  assert (Hsnaps :
    snd (_get_snapstore_versions (before ++ (snap_name, snap_channel) :: after)
                                 architecture w1) = Raise IndexError).
  { unfold _get_snapstore_versions in *. rewrite for_each_app.
    rewrite (bind_Ok _ _ _ _ _ Hbefore). cbn [for_each].
    apply bind_Raise_snd.
    exact (snapstore_version_empty_results architecture snap_name snap_channel
             response body revisions w2 Hpost Hok Hbody Hresults). }
  destruct (_get_snapstore_versions (before ++ (snap_name, snap_channel) :: after)
                                    architecture w1) as [w3 r] eqn:Hrun.
  simpl in Hsnaps, Hfiles2. subst r.
  exists w3. split; [| congruence].
  unfold ubuntu_manifest_archive_diff. rewrite Hparse.
  rewrite (bind_Ok _ _ w w _) by reflexivity. cbv beta iota.
  rewrite (bind_Ok _ _ _ _ _ Hversions).
  apply (bind_Raise _ _ _ _ _ Hrun).
Qed.

End SnapResolver.

(** The manifest lists core20, for which the store answers with success and
    no result: the run ends with [IndexError], nothing is written. *)
Lemma empty_results_abort_the_run_witness :
  (parse_manifest Scenario.manifest = Ok (["bash"], [] ++ ("core20", "stable") :: [])
   /\ @requests_post Scenario.services_with_gaps SNAP_REFRESH_URL
        (snap_request_headers "amd64") (snap_request_data "core20" "stable")
      = Ok Scenario.empty_results
   /\ ok Scenario.empty_results = true)
  /\ exists w3,
      @ubuntu_manifest_archive_diff Scenario.services_with_gaps "focal"
        Scenario.manifest "amd64" [] None "archive.manifest" Demo.empty_world
      = (w3, Raise IndexError)
      /\ files w3 = files Demo.empty_world.
Proof.
  split; [repeat split; reflexivity |].
  apply (@empty_results_abort_the_run Scenario.services_with_gaps
           "focal" Scenario.manifest "amd64" [] None "archive.manifest"
           ["bash"] [] "core20" "stable" [] Scenario.empty_results
           (JObj [("error-list", JList []); ("results", JList [])])
           Demo.empty_world
           (fst (@get_archive_versions Scenario.services_with_gaps "focal" ["bash"]
                   "amd64" [] None Demo.empty_world))
           [("bash", "5.1-6ubuntu1")]
           (fst (@get_archive_versions Scenario.services_with_gaps "focal" ["bash"]
                   "amd64" [] None Demo.empty_world))
           []);
    vm_compute; reflexivity.
Defined.

(** ** Supplementary repositories *)

Section SupplementaryRepositories.

Context `{Services}.

Lemma ppa_versions_same_outcome launchpad das name ppa found :
  same_outcome (ppa_versions launchpad das name ppa found)
               (ppa_versions launchpad das name ppa found).
Proof. unfold ppa_versions, _get_binary_packages. same_outcome. Qed.

Lemma pocket_versions_same_outcome ubuntu das name pocket found :
  same_outcome (pocket_versions ubuntu das name pocket found)
               (pocket_versions ubuntu das name pocket found).
Proof. unfold pocket_versions, _get_binary_packages. same_outcome. Qed.

(** The guard [if ppas:] changes nothing: a loop over no repository does
    nothing either. *)
Lemma versions_found_unguarded launchpad ubuntu das ppas name w :
  versions_found_in_archive launchpad ubuntu das ppas name w
  = bind (for_each ppas (ppa_versions launchpad das name) [])
         (fun found =>
            for_each ARCHIVE_POCKETS (pocket_versions ubuntu das name) found)
         w.
Proof. unfold versions_found_in_archive. destruct ppas; reflexivity. Qed.

Lemma ppa_archive_Ok_inv launchpad ppa archive :
  ppa_archive launchpad ppa = Ok archive ->
  exists owner name person,
    unpack2 (Py.split_on "/" ppa) = Ok (owner, name)
    /\ people launchpad owner = Ok person
    /\ getPPAByName person name = Ok archive.
Proof.
  unfold ppa_archive. intros Harchive.
  destruct (unpack2 (Py.split_on "/" ppa)) as [[owner name] | e]; [| discriminate].
  destruct (people launchpad owner) as [person | e] eqn:Hperson; [| discriminate].
  exists owner, name, person. repeat split; assumption.
Qed.

(** A query of a supplementary repository that raises ends the resolution of
    the package with that exception: nothing catches it. *)
Lemma ppa_error_propagates launchpad das name ppa archive e found w :
  ppa_archive launchpad ppa = Ok archive ->
  getPublishedBinaries archive true name das "Release" true "Published" = Raise e ->
  snd (ppa_versions launchpad das name ppa found w) = Raise e.
Proof.
  intros Harchive Hquery.
  apply ppa_archive_Ok_inv in Harchive as (owner & pname & person & Hsplit & Hperson & Hppa).
  unfold ppa_versions, _get_binary_packages, bind, lift, remote, print.
  rewrite Hsplit, Hperson, Hppa, Hquery. reflexivity.
Qed.

(** C3, as amended. A supplementary repository whose query returns no
    publication leaves the versions found so far as they were, and the
    versions of the package are collected as if that repository had not been
    given. *)
Theorem empty_ppa_contributes_nothing launchpad ubuntu das before ppa after name archive :
  ppa_archive launchpad ppa = Ok archive ->
  getPublishedBinaries archive true name das "Release" true "Published" = Ok [] ->
  (forall found w, snd (ppa_versions launchpad das name ppa found w) = Ok found)
  /\ (forall w,
        snd (versions_found_in_archive launchpad ubuntu das (before ++ ppa :: after) name w)
        = snd (versions_found_in_archive launchpad ubuntu das (before ++ after) name w)).
Proof.
  intros Harchive Hquery.
  apply ppa_archive_Ok_inv in Harchive as (owner & pname & person & Hsplit & Hperson & Hppa).
  assert (Hskip : forall found w,
             snd (ppa_versions launchpad das name ppa found w) = Ok found).
  { intros found w.
    unfold ppa_versions, _get_binary_packages, bind, lift, remote, print.
    rewrite Hsplit, Hperson, Hppa, Hquery. reflexivity. }
  split; [exact Hskip |].
  intros w. rewrite !versions_found_unguarded.
  apply same_outcome_bind.
  - apply for_each_skip; [| exact Hskip].
    intros y s. apply ppa_versions_same_outcome.
  - intros found. apply same_outcome_for_each.
    intros pocket s. apply pocket_versions_same_outcome.
Qed.

End SupplementaryRepositories.

(** A repository that publishes nothing for bash. *)
Lemma empty_ppa_contributes_nothing_witness :
  (@ppa_archive Scenario.services_empty_ppa "launchpad" "owner/ppa"
   = Ok "~owner/+archive/ppa"
   /\ @getPublishedBinaries Scenario.services_empty_ppa "~owner/+archive/ppa" true
        "bash" "ubuntu/focal/amd64" "Release" true "Published" = Ok [])
  /\ (forall found w,
        snd (@ppa_versions Scenario.services_empty_ppa "launchpad"
               "ubuntu/focal/amd64" "bash" "owner/ppa" found w) = Ok found)
  /\ (forall w,
        snd (@versions_found_in_archive Scenario.services_empty_ppa "launchpad"
               "ubuntu" "ubuntu/focal/amd64" ([] ++ "owner/ppa" :: []) "bash" w)
        = snd (@versions_found_in_archive Scenario.services_empty_ppa "launchpad"
                 "ubuntu" "ubuntu/focal/amd64" ([] ++ []) "bash" w)).
Proof.
  split; [split; reflexivity |].
  exact (@empty_ppa_contributes_nothing Scenario.services_empty_ppa "launchpad"
           "ubuntu" "ubuntu/focal/amd64" [] "owner/ppa" [] "bash"
           "~owner/+archive/ppa" eq_refl eq_refl).
Defined.

(** C3, as stated, fails: with a supplementary repository whose query raises,
    the resolver raises and the run ends without an output file, although
    the same run without that repository succeeds. *)
Lemma ppa_error_is_fatal :
  snd (@get_archive_versions Scenario.services_failing_ppa "focal" ["bash"] "amd64"
         [] None Demo.empty_world)
  = Ok [("bash", "5.1-6ubuntu1")]
  /\ snd (@get_archive_versions Scenario.services_failing_ppa "focal" ["bash"] "amd64"
            ["owner/ppa"] None Demo.empty_world)
     = Raise (RemoteError "service unavailable")
  /\ snd (@ubuntu_manifest_archive_diff Scenario.services_failing_ppa "focal"
            Scenario.manifest "amd64" ["owner/ppa"] None "archive.manifest"
            Demo.empty_world)
     = Raise (RemoteError "service unavailable")
  /\ files (fst (@ubuntu_manifest_archive_diff Scenario.services_failing_ppa "focal"
                   Scenario.manifest "amd64" ["owner/ppa"] None "archive.manifest"
                   Demo.empty_world))
     !! "archive.manifest" = None.
Proof. repeat split; vm_compute; reflexivity. Qed.

(** ** [str.replace] *)

Lemma prefix_append (p s : string) : String.prefix p (p +:+ s) = true.
Proof.
  induction p as [| c p IH]; [destruct s; reflexivity |].
  rewrite append_cons. simpl. destruct (ascii_dec c c); [exact IH | congruence].
Qed.

Lemma prefix_length (p s : string) :
  String.prefix p s = true -> String.length p <= String.length s.
Proof.
  revert s. induction p as [| c p IH]; intros [| d s]; simpl; try lia; try discriminate.
  destruct (ascii_dec c d); [| discriminate]. intros Hp. apply IH in Hp. lia.
Qed.

(** Characters still to be jumped over are dropped. *)
Lemma replace_from_skip old new (t s : string) :
  Py.replace_from old new (String.length t) (t +:+ s) = Py.replace_from old new 0 s.
Proof.
  induction t as [| c t IH]; [reflexivity |].
  rewrite append_cons. simpl. exact IH.
Qed.

Lemma replace_from_skip_all old new (s : string) skip :
  String.length s <= skip -> Py.replace_from old new skip s = "".
Proof.
  revert skip. induction s as [| c s IH]; intros skip Hskip; [reflexivity |].
  simpl in Hskip. destruct skip as [| k]; [lia |]. simpl. apply IH. lia.
Qed.

(** A string that starts with [old] is replaced as [new] followed by the
    replacement of the rest. *)
Lemma replace_prefix c old new (s : string) :
  Py.replace (String c old +:+ s) (String c old) new
  = new +:+ Py.replace s (String c old) new.
Proof.
  unfold Py.replace. rewrite append_cons.
  change (Py.replace_from (String c old) new 0 (String c (old +:+ s)))
    with (if String.prefix (String c old) (String c (old +:+ s))
          then new +:+ Py.replace_from (String c old) new
                         (String.length (String c old) - 1) (old +:+ s)
          else String c (Py.replace_from (String c old) new 0 (old +:+ s))).
  rewrite <- append_cons, prefix_append.
  replace (String.length (String c old) - 1) with (String.length old)
    by (simpl; lia).
  rewrite replace_from_skip. reflexivity.
Qed.

(** ** The manifest parser *)

Lemma entry_of_line_error normalize line e :
  entry_of_line normalize line = Raise e -> e = ValueError.
Proof.
  unfold entry_of_line.
  destruct (Py.contains "snap:" line);
    destruct (Py.split (Py.strip line)) as [| f1 [| f2 [| f3 [| f4 fs]]]];
    congruence.
Qed.

(** One turn of the loop, read as an entry. *)
Lemma parse_line_entry line binaries snaps :
  parse_line line (binaries, snaps)
  = match entry_of_line (fun name => Py.replace name "snap:" "") line with
    | Ok (BinaryPackageRef name) => Ok (binaries ++ [name], snaps)
    | Ok (SnapRef name channel) => Ok (binaries, snaps ++ [(name, channel)])
    | Raise e => Raise e
    end.
Proof.
  unfold parse_line, entry_of_line, unpack2, unpack3.
  destruct (Py.contains "snap:" line);
    destruct (Py.split (Py.strip line)) as [| f1 [| f2 [| f3 [| f4 fs]]]];
    reflexivity.
Qed.

Lemma parse_lines_entries manifest :
  forall binaries snaps,
    match entries_of (fun name => Py.replace name "snap:" "") manifest with
    | Ok entries =>
        parse_lines manifest (binaries, snaps)
        = Ok (binaries ++ binary_refs entries, snaps ++ snap_refs entries)
    | Raise e => parse_lines manifest (binaries, snaps) = Raise ValueError
    end.
Proof.
  induction manifest as [| line rest IH]; intros binaries snaps;
    cbn [parse_lines entries_of binary_refs snap_refs].
  - rewrite !app_nil_r. reflexivity.
  - rewrite parse_line_entry.
    destruct (entry_of_line _ line) as [[name | name channel] | e] eqn:Hline.
    + specialize (IH (binaries ++ [name]) snaps).
      destruct (entries_of _ rest) as [entries | e]; [| exact IH].
      rewrite IH. simpl. rewrite <- app_assoc. reflexivity.
    + specialize (IH binaries (snaps ++ [(name, channel)])).
      destruct (entries_of _ rest) as [entries | e]; [| exact IH].
      rewrite IH. simpl. rewrite <- app_assoc. reflexivity.
    + apply entry_of_line_error in Hline. subst e. reflexivity.
Qed.

(** C2, as amended. The parser reads the manifest line by line: a line that
    contains [snap:] must have exactly three fields and gives a snap, whose
    name is the first field with every occurrence of [snap:] removed and
    whose channel is the second field; any other line must have exactly two
    fields and gives a binary package named by the first.  The names come
    out in the order of the lines.  A line with another number of fields
    raises [ValueError], and the run ends there, in the world it started in:
    no remote call has been made.  Removing the occurrences of [snap:] strips
    the prefix [snap:], and goes on in what follows it. *)
Theorem parse_manifest_entries manifest :
  match entries_of (fun name => Py.replace name "snap:" "") manifest with
  | Ok entries =>
      parse_manifest manifest = Ok (binary_refs entries, snap_refs entries)
  | Raise _ =>
      parse_manifest manifest = Raise ValueError
      /\ forall (services : Services) series architecture ppas lp_user
                archive_manifest_filename w,
          ubuntu_manifest_archive_diff series manifest architecture ppas lp_user
            archive_manifest_filename w
          = (w, Raise ValueError)
  end
  /\ forall name,
      Py.replace ("snap:" +:+ name) "snap:" "" = Py.replace name "snap:" "".
Proof.
  split.
  - pose proof (parse_lines_entries manifest [] []) as Hparse.
    fold (parse_manifest manifest) in Hparse.
    destruct (entries_of _ manifest) as [entries | e]; [exact Hparse |].
    split; [exact Hparse |].
    intros services series architecture ppas lp_user path w.
    unfold ubuntu_manifest_archive_diff. rewrite Hparse. reflexivity.
  - intros name. apply (replace_prefix "s" "nap:" "" name).
Qed.

(** C2, as stated, fails: a first field in which [snap:] occurs again after
    the prefix loses every occurrence, not only the prefix. *)
Lemma snap_prefix_counterexample :
  parse_manifest ["snap:snap:core stable 1" +:+ Py.nl] = Ok ([], [("core", "stable")])
  /\ parse_manifest_spec ["snap:snap:core stable 1" +:+ Py.nl]
     = Ok ([], [("snap:core", "stable")])
  /\ parse_manifest ["snap:snap:core stable 1" +:+ Py.nl]
     <> parse_manifest_spec ["snap:snap:core stable 1" +:+ Py.nl].
Proof. repeat split; [vm_compute; reflexivity .. | vm_compute; congruence]. Qed.

(** ** The architecture qualifier *)

Lemma prefix_nil (s : string) : String.prefix "" s = true.
Proof. destruct s; reflexivity. Qed.

Lemma prefix_cons a (s1 : string) b (s2 : string) :
  String.prefix (String a s1) (String b s2)
  = if Ascii.eqb a b then String.prefix s1 s2 else false.
Proof.
  simpl. destruct (ascii_dec a b) as [-> | Hne].
  - rewrite Ascii.eqb_refl. reflexivity.
  - apply Ascii.eqb_neq in Hne. rewrite Hne. reflexivity.
Qed.

Lemma contains_cons sub c (s : string) :
  Py.contains sub (String c s) = String.prefix sub (String c s) || Py.contains sub s.
Proof. reflexivity. Qed.

Lemma replace_from_cons old new c (s : string) :
  Py.replace_from old new 0 (String c s)
  = if String.prefix old (String c s)
    then new +:+ Py.replace_from old new (String.length old - 1) s
    else String c (Py.replace_from old new 0 s).
Proof. reflexivity. Qed.

Lemma contains_colon_cons a (s : string) :
  Py.contains ":" (String a s) = false ->
  Ascii.eqb ":" a = false /\ Py.contains ":" s = false.
Proof.
  rewrite contains_cons, prefix_cons, prefix_nil.
  destruct (Ascii.eqb ":" a); [discriminate |].
  intros Hs. split; [reflexivity | exact Hs].
Qed.

(** A string without colon matches before a colon or not at all. *)
Lemma prefix_before_colon arch :
  Py.contains ":" arch = false ->
  forall b t, String.prefix arch (b +:+ String ":" t) = String.prefix arch b.
Proof.
  induction arch as [| a arch IH]; intros Hcolon b t.
  - rewrite !prefix_nil. reflexivity.
  - apply contains_colon_cons in Hcolon as [Ha Hcolon].
    destruct b as [| x b].
    + rewrite append_nil_l, prefix_cons, Ascii.eqb_sym, Ha. reflexivity.
    + rewrite append_cons, !prefix_cons. destruct (Ascii.eqb a x); [| reflexivity].
      apply IH, Hcolon.
Qed.

(** Appending the qualifier to a name changes nothing of its replacement:
    the qualifier is matched at the end, and nowhere across the seam. *)
Lemma replace_from_qualifier arch :
  Py.contains ":" arch = false ->
  forall base skip,
    skip <= String.length base ->
    Py.replace_from (String ":" arch) "" skip (base +:+ String ":" arch)
    = Py.replace_from (String ":" arch) "" skip base.
Proof.
  intros Hcolon. induction base as [| c base IH]; intros skip Hskip.
  - simpl in Hskip. assert (skip = 0) as -> by lia.
    rewrite append_nil_l, replace_from_cons.
    rewrite <- (append_nil_r (String ":" arch)) at 2.
    rewrite prefix_append, append_nil_l.
    apply replace_from_skip_all. simpl. lia.
  - rewrite append_cons. destruct skip as [| k].
    + rewrite !replace_from_cons, !(prefix_cons ":" arch c).
      destruct (Ascii.eqb ":" c).
      * rewrite (prefix_before_colon arch Hcolon).
        destruct (String.prefix arch base) eqn:Hmatch.
        -- apply prefix_length in Hmatch. rewrite !append_nil_l.
           apply IH. simpl. lia.
        -- rewrite (IH 0) by lia. reflexivity.
      * rewrite (IH 0) by lia. reflexivity.
    + simpl in Hskip. simpl. apply IH. lia.
Qed.

Lemma replace_absent old new (s : string) :
  Py.contains old s = false -> Py.replace_from old new 0 s = s.
Proof.
  induction s as [| c s IH]; [reflexivity |].
  rewrite contains_cons. intros Habsent.
  apply orb_false_iff in Habsent as [Hhere Hlater].
  rewrite replace_from_cons, Hhere, (IH Hlater). reflexivity.
Qed.

Lemma bind_ext {A B} (m : M A) (k1 k2 : A -> M B) w :
  (forall a w', k1 a w' = k2 a w') -> bind m k1 w = bind m k2 w.
Proof.
  intros Hk. unfold bind. destruct (m w) as [w1 [a | e]]; [apply Hk | reflexivity].
Qed.

Section Qualifier.

Context `{Services}.

(** C7, as amended. For an architecture tag without colon, a name that
    carries the qualifier [:architecture] at its end is normalized to what
    the name without it is normalized to, which is that name itself when the
    qualifier does not occur in it; the resolver then does exactly the same,
    queries and result, for the qualified as for the unqualified name. *)
Theorem qualified_name_resolves_as_bare
    series before base after architecture ppas lp_user w :
  Py.contains ":" architecture = false ->
  Py.replace (base +:+ ":" +:+ architecture) (":" +:+ architecture) ""
  = Py.replace base (":" +:+ architecture) ""
  /\ (Py.contains (":" +:+ architecture) base = false ->
      Py.replace (base +:+ ":" +:+ architecture) (":" +:+ architecture) "" = base)
  /\ get_archive_versions series (before ++ (base +:+ ":" +:+ architecture) :: after)
       architecture ppas lp_user w
     = get_archive_versions series (before ++ base :: after)
         architecture ppas lp_user w.
Proof.
  intros Hcolon.
  assert (Hname :
    Py.replace (base +:+ ":" +:+ architecture) (":" +:+ architecture) ""
    = Py.replace base (":" +:+ architecture) "").
  { unfold Py.replace. change (":" +:+ architecture) with (String ":" architecture).
    apply (replace_from_qualifier architecture Hcolon). lia. }
  split; [exact Hname | split].
  - intros Habsent. rewrite Hname. unfold Py.replace.
    change (":" +:+ architecture) with (String ":" architecture) in *.
    apply replace_absent, Habsent.
  - unfold get_archive_versions.
    repeat (apply bind_ext; intros ? ?).
    rewrite !for_each_app. apply bind_ext. intros acc wacc.
    cbn [for_each]. unfold archive_version at 1 3. rewrite Hname. reflexivity.
Qed.

End Qualifier.

(** bash, qualified with the architecture amd64. *)
Lemma qualified_name_resolves_as_bare_witness :
  Py.contains ":" "amd64" = false
  /\ Py.replace ("bash" +:+ ":" +:+ "amd64") (":" +:+ "amd64") ""
     = Py.replace "bash" (":" +:+ "amd64") ""
  /\ (Py.contains (":" +:+ "amd64") "bash" = false ->
      Py.replace ("bash" +:+ ":" +:+ "amd64") (":" +:+ "amd64") "" = "bash")
  /\ @get_archive_versions Scenario.services "focal"
       ([] ++ ("bash" +:+ ":" +:+ "amd64") :: ["nothing"]) "amd64" [] None
       Demo.empty_world
     = @get_archive_versions Scenario.services "focal"
         ([] ++ "bash" :: ["nothing"]) "amd64" [] None Demo.empty_world.
Proof.
  split; [reflexivity |].
  exact (@qualified_name_resolves_as_bare Scenario.services "focal" [] "bash"
           ["nothing"] "amd64" [] None Demo.empty_world eq_refl).
Defined.

(** C7, as stated, fails: the qualifier is removed wherever it occurs, not
    only at the end.  The name [lib:amd64foo] has no trailing qualifier, yet
    the resolver queries and records [libfoo]. *)
Lemma interior_qualifier_counterexample :
  normalized_name_spec "amd64" "lib:amd64foo" = "lib:amd64foo"
  /\ snd (@get_archive_versions Scenario.services "focal" ["lib:amd64foo"] "amd64"
            [] None Demo.empty_world)
     = Ok [("libfoo", "1.0-1")]
  /\ map fst [("libfoo", "1.0-1")]
     <> map (normalized_name_spec "amd64") ["lib:amd64foo"]
  /\ queries (calls (fst (@get_archive_versions Scenario.services "focal"
                            ["lib:amd64foo"] "amd64" [] None Demo.empty_world)))
     = map (exact_query "libfoo" "ubuntu/focal/amd64")
           (query_plan [] "ubuntu/+archive/primary").
Proof.
  repeat split; try (vm_compute; reflexivity).
  vm_compute. congruence.
Qed.

(** ** The greatest version *)

Section MaxVersion.

Context `{Services}.

(** With no version found the result is the initial value. *)
Lemma find_max_version_nil w : find_max_version [] w = (w, Ok "0.0.0").
Proof. reflexivity. Qed.

(** A single version that does not compare above ["0.0.0"] is not kept. *)
Lemma find_max_version_below_initial v c w :
  version_compare v "0.0.0" = Ok c -> (c <= 0)%Z ->
  find_max_version [v] w = (w, Ok "0.0.0").
Proof.
  intros Hcompare Hc. unfold find_max_version. cbn [for_each].
  unfold bind, lift, ret. rewrite Hcompare.
  destruct (c >? 0)%Z eqn:Hgt; [lia | reflexivity].
Qed.

(** What the loop computes when the comparator is a total preorder given by
    [cmp]: a greatest element of the versions found together with
    ["0.0.0"]. *)
Lemma find_max_version_greatest (cmp : string -> string -> Z) :
  (forall a b, version_compare a b = Ok (cmp a b)) ->
  (forall a, (cmp a a <= 0)%Z) ->
  (forall a b c, (cmp a b <= 0)%Z -> (cmp c b > 0)%Z -> (cmp a c <= 0)%Z) ->
  forall found w,
  exists max_version,
    find_max_version found w = (w, Ok max_version)
    /\ In max_version ("0.0.0" :: found)
    /\ forall v, In v ("0.0.0" :: found) -> (cmp v max_version <= 0)%Z.
Proof.
  intros Hcompare Hrefl Htrans found w. unfold find_max_version.
  assert (Hloop : forall seen current,
    In current seen ->
    (forall v, In v seen -> (cmp v current <= 0)%Z) ->
    exists max_version,
      for_each found
        (fun candidate max_version =>
           let* c := lift (version_compare candidate max_version) in
           if (c >? 0)%Z then ret candidate else ret max_version)
        current w
      = (w, Ok max_version)
      /\ In max_version (seen ++ found)
      /\ forall v, In v (seen ++ found) -> (cmp v max_version <= 0)%Z).
  { induction found as [| candidate found IH]; intros seen current Hin Hmax.
    - exists current. rewrite app_nil_r. repeat split; assumption.
    - cbn [for_each]. unfold bind at 1. unfold bind at 1, lift at 1.
      rewrite Hcompare.
      destruct (cmp candidate current >? 0)%Z eqn:Hgt; unfold ret at 1.
      + destruct (IH (seen ++ [candidate]) candidate) as (m & Hrun & Hm & Hall).
        * apply in_or_app. right. left. reflexivity.
        * intros v Hv. apply in_app_or in Hv as [Hv | [<- | []]].
          -- apply (Htrans v current candidate); [apply Hmax, Hv | lia].
          -- apply Hrefl.
        * exists m. rewrite <- app_assoc in Hm, Hall. repeat split; assumption.
      + destruct (IH (seen ++ [candidate]) current) as (m & Hrun & Hm & Hall).
        * apply in_or_app. left. exact Hin.
        * intros v Hv. apply in_app_or in Hv as [Hv | [<- | []]].
          -- apply Hmax, Hv.
          -- lia.
        * exists m. rewrite <- app_assoc in Hm, Hall. repeat split; assumption. }
  destruct (Hloop ["0.0.0"] "0.0.0") as (m & Hrun & Hm & Hall).
  - left. reflexivity.
  - intros v [<- | []]. apply Hrefl.
  - exists m. repeat split; assumption.
Qed.

End MaxVersion.

(** C1. The archive publishes a single version of golang-foo-dev, which
    sorts before 0.0.0 in Debian order: the resolver finds it, and yet emits
    0.0.0, which is not among the versions found. *)
Theorem initial_value_hides_lower_versions :
  snd (@versions_found_in_archive Scenario.services "launchpad" "ubuntu"
         "ubuntu/focal/amd64" [] "golang-foo-dev" Demo.empty_world)
  = Ok ["0.0~git20200101.1a2b3c-1"]
  /\ @version_compare Scenario.services "0.0~git20200101.1a2b3c-1" "0.0.0" = Ok (-1)%Z
  /\ snd (@find_max_version Scenario.services ["0.0~git20200101.1a2b3c-1"]
            Demo.empty_world)
     = Ok "0.0.0"
  /\ snd (@get_archive_versions Scenario.services "focal" ["golang-foo-dev"] "amd64"
            [] None Demo.empty_world)
     = Ok [("golang-foo-dev", "0.0.0")].
Proof. repeat split; vm_compute; reflexivity. Qed.

(** ** The archive resolver returns when the services answer *)

Lemma returns_ret {A} (a : A) : returns (ret a).
Proof. intros w. exists w, a. reflexivity. Qed.

Lemma returns_print s : returns (print s).
Proof. intros w. eexists _, tt. reflexivity. Qed.

Lemma returns_remote {A} c (a : A) : returns (remote c (Ok a)).
Proof. intros w. eexists _, a. reflexivity. Qed.

Lemma returns_bind {A B} (m : M A) (k : A -> M B) :
  returns m -> (forall a, returns (k a)) -> returns (bind m k).
Proof.
  intros Hm Hk w. destruct (Hm w) as (w1 & a & Hrun).
  rewrite (bind_Ok _ _ _ _ _ Hrun). apply Hk.
Qed.

Lemma returns_bind_lift {A B} (a : A) (k : A -> M B) :
  returns (k a) -> returns (bind (lift (Ok a)) k).
Proof. intros Hk w. apply Hk. Qed.

Lemma returns_bind_remote {A B} c (a : A) (k : A -> M B) :
  returns (k a) -> returns (bind (remote c (Ok a)) k).
Proof. intros Hk w. apply Hk. Qed.

Lemma returns_for_each {A S} (xs : list A) (body : A -> S -> M S) :
  Forall (fun x => forall s, returns (body x s)) xs ->
  forall s, returns (for_each xs body s).
Proof.
  induction 1 as [| x xs Hx _ IH]; intros s; simpl.
  - apply returns_ret.
  - apply returns_bind; [apply Hx | exact IH].
Qed.

Section Progress.

Context `{Services}.

Variables (series architecture : string) (ppas : list string).
Variables (lp_user : option string) (launchpad ubuntu lp_series das : link).

Hypothesis login_answers :
  (if truthy lp_user then login_with (default "" lp_user)
   else login_anonymously "ubuntu-manifest-archive-diff") = Ok launchpad.
Hypothesis distribution_answers : distributions launchpad "ubuntu" = Ok ubuntu.
Hypothesis series_answers : getSeries ubuntu series = Ok lp_series.
Hypothesis arch_series_answers : getDistroArchSeries lp_series architecture = Ok das.
Hypothesis ppas_exist :
  Forall (fun ppa => exists archive, ppa_archive launchpad ppa = Ok archive) ppas.
Hypothesis queries_answer :
  forall archive name pocket,
  exists binaries,
    getPublishedBinaries archive true name das pocket true "Published" = Ok binaries.
Hypothesis comparisons_answer :
  forall a b, exists c, version_compare a b = Ok c.

Lemma collect_versions_returns (msg : BinaryPublication -> string) binaries found :
  returns (for_each binaries
             (fun binary found =>
                let* _ := print (msg binary) in
                ret (found ++ [Publication.binary_package_version binary]))
             found).
Proof. intros w. rewrite collect_versions. eexists _, _. reflexivity. Qed.

Lemma ppa_versions_returns name ppa found :
  (exists archive, ppa_archive launchpad ppa = Ok archive) ->
  returns (ppa_versions launchpad das name ppa found).
Proof.
  intros [archive Harchive].
  apply ppa_archive_Ok_inv in Harchive as (owner & pname & person & Hsplit & Hperson & Hppa).
  destruct (queries_answer archive name "Release") as [binaries Hquery].
  unfold ppa_versions, _get_binary_packages.
  rewrite Hsplit. apply returns_bind_lift. cbv beta iota.
  rewrite Hperson. apply returns_bind_remote.
  rewrite Hppa. apply returns_bind_remote.
  apply returns_bind; [apply returns_print | intros _].
  rewrite Hquery. apply returns_bind_remote.
  apply collect_versions_returns.
Qed.

Lemma pocket_versions_returns name pocket found :
  returns (pocket_versions ubuntu das name pocket found).
Proof.
  destruct (queries_answer (main_archive ubuntu) name pocket) as [binaries Hquery].
  unfold pocket_versions, _get_binary_packages. rewrite Hquery.
  apply returns_bind_remote.
  destruct (negb (length binaries =? 0)%nat).
  - apply collect_versions_returns.
  - apply returns_ret.
Qed.

Lemma find_max_version_returns found : returns (find_max_version found).
Proof.
  unfold find_max_version. apply returns_for_each.
  apply Forall_forall. intros v _ current.
  destruct (comparisons_answer v current) as [c Hc]. rewrite Hc.
  apply returns_bind_lift. destruct (c >? 0)%Z; apply returns_ret.
Qed.

Lemma versions_found_returns name :
  returns (versions_found_in_archive launchpad ubuntu das ppas name).
Proof.
  intros w. rewrite versions_found_unguarded. revert w.
  apply returns_bind.
  - apply returns_for_each.
    eapply Forall_impl; [exact ppas_exist |].
    intros ppa Hppa found. apply ppa_versions_returns, Hppa.
  - intros found. apply returns_for_each.
    apply Forall_forall. intros pocket _ found'. apply pocket_versions_returns.
Qed.

(** When Launchpad answers every call and every comparison has a result, the
    resolver returns a list, whatever the queries find. *)
Lemma get_archive_versions_returns names :
  returns (get_archive_versions series names architecture ppas lp_user).
Proof.
  unfold get_archive_versions.
  assert (Hlogin : returns
    (if truthy lp_user
     then remote (LoginWith (default "" lp_user) "production" "devel")
                 (login_with (default "" lp_user))
     else remote (LoginAnonymously "ubuntu-manifest-archive-diff" "production" "devel")
                 (login_anonymously "ubuntu-manifest-archive-diff"))
    /\ forall w w' l,
        (if truthy lp_user
         then remote (LoginWith (default "" lp_user) "production" "devel")
                     (login_with (default "" lp_user))
         else remote (LoginAnonymously "ubuntu-manifest-archive-diff" "production" "devel")
                     (login_anonymously "ubuntu-manifest-archive-diff")) w
        = (w', Ok l) -> l = launchpad).
  { destruct (truthy lp_user); rewrite login_answers; split;
      try apply returns_remote; unfold remote; intros w w' l [= _ <-]; reflexivity. }
  destruct Hlogin as [Hlogin Hlink].
  intros w. destruct (Hlogin w) as (w1 & l & Hrun).
  rewrite (bind_Ok _ _ _ _ _ Hrun). apply Hlink in Hrun as ->. revert w1.
  rewrite distribution_answers. apply returns_bind_remote.
  rewrite series_answers. apply returns_bind_remote.
  rewrite arch_series_answers. apply returns_bind_remote.
  apply returns_for_each, Forall_forall. intros name _ acc.
  unfold archive_version.
  apply returns_bind; [apply versions_found_returns | intros found].
  apply returns_bind; [apply find_max_version_returns | intros max_version].
  apply returns_bind; [apply returns_print | intros _]. apply returns_ret.
Qed.

End Progress.

(** The hypotheses of the section hold of services that answer every call. *)
Example answering_services_return names :
  returns (@get_archive_versions Scenario.services_dictionary_order "focal" names
             "amd64" ["owner/ppa"] None).
Proof.
  apply (@get_archive_versions_returns Scenario.services_dictionary_order
           "focal" "amd64" ["owner/ppa"] None
           "launchpad" "ubuntu" "ubuntu/focal" "ubuntu/focal/amd64");
    try reflexivity.
  - repeat constructor. exists "~owner/+archive/ppa". reflexivity.
  - intros archive name pocket. simpl.
    unfold Scenario.published_with_ppa, Scenario.published.
    repeat match goal with
           | |- context [if ?b then _ else _] => destruct b
           end; eexists; reflexivity.
  - intros a b. eexists. reflexivity.
Qed.

(** * Further properties of the script *)

(** ** Fields *)

Lemma is_field_no_space s : is_field s = true -> no_space s = true.
Proof. destruct s; [discriminate | auto]. Qed.

Lemma split_cons c s :
  Py.split (String c s)
  = if Py.isspace c then Py.split s
    else if Py.field_ends s then String c "" :: Py.split s
    else match Py.split s with
         | f :: fs => String c f :: fs
         | [] => [String c ""]
         end.
Proof. reflexivity. Qed.

(** Every item of [split] is a field. *)
Lemma split_fields_are_fields s : Forall (fun f => is_field f = true) (Py.split s).
Proof.
  induction s as [| c s IH]; [constructor |].
  cbn [Py.split]. destruct (Py.isspace c) eqn:Hc; [exact IH |].
  assert (Hone : is_field (String c "") = true) by (simpl; rewrite Hc; reflexivity).
  destruct (Py.field_ends s).
  - constructor; assumption.
  - destruct (Py.split s) as [| f fs]; [repeat constructor; exact Hone |].
    inversion IH as [| ? ? Hf Hfs]; subst. constructor; [| exact Hfs].
    simpl. rewrite Hc. simpl. apply is_field_no_space, Hf.
Qed.

(** A field followed by the end of a field is the first item. *)
Lemma split_field_app a rest :
  is_field a = true -> Py.field_ends rest = true ->
  Py.split (a +:+ rest) = a :: Py.split rest.
Proof.
  induction a as [| x a IH]; [discriminate |].
  intros Hfield Hrest. simpl in Hfield.
  apply andb_true_iff in Hfield as [Hx Ha]. apply negb_true_iff in Hx.
  rewrite append_cons. cbn [Py.split]. rewrite Hx.
  destruct a as [| y a].
  - rewrite append_nil_l, Hrest. reflexivity.
  - assert (Hy : Py.isspace y = false).
    { simpl in Ha. apply andb_true_iff in Ha as [Hy _].
      apply negb_true_iff in Hy. exact Hy. }
    rewrite append_cons. cbn [Py.field_ends]. rewrite Hy.
    rewrite <- append_cons, IH by assumption. reflexivity.
Qed.

Lemma lstrip_split s : Py.split (Py.lstrip s) = Py.split s.
Proof.
  induction s as [| c s IH]; [reflexivity |].
  cbn [Py.lstrip Py.split]. destruct (Py.isspace c) eqn:Hc; [exact IH |].
  cbn [Py.split]. rewrite Hc. reflexivity.
Qed.

Lemma rstrip_head c s : exists r, Py.rstrip (String c s) = "" \/ Py.rstrip (String c s) = String c r.
Proof.
  cbn [Py.rstrip]. destruct (Py.rstrip s) as [| d r].
  - destruct (Py.isspace c); [exists ""; left | exists ""; right]; reflexivity.
  - exists (String d r). right. reflexivity.
Qed.

Lemma rstrip_empty s :
  Py.rstrip s = "" -> Py.split s = [] /\ Py.field_ends s = true.
Proof.
  induction s as [| c s IH]; [split; reflexivity |].
  cbn [Py.rstrip]. destruct (Py.rstrip s) as [| d r] eqn:Hr; [| discriminate].
  destruct (Py.isspace c) eqn:Hc; [| discriminate].
  intros _. cbn [Py.split Py.field_ends]. rewrite Hc.
  split; [apply IH; reflexivity | reflexivity].
Qed.

Lemma rstrip_split s : Py.split (Py.rstrip s) = Py.split s.
Proof.
  induction s as [| c s IH]; [reflexivity |].
  cbn [Py.rstrip]. destruct (Py.rstrip s) as [| d r] eqn:Hr.
  - destruct (rstrip_empty s Hr) as [Hsplit Hends].
    cbn [Py.split]. rewrite Hsplit, Hends.
    destruct (Py.isspace c) eqn:Hc; cbn [Py.split Py.field_ends]; rewrite ?Hc; reflexivity.
  - assert (Hends : Py.field_ends (String d r) = Py.field_ends s).
    { destruct s as [| x s]; [discriminate |].
      destruct (rstrip_head x s) as [r' [Hnil | Hcons]]; rewrite Hr in *;
        [discriminate |]. injection Hcons as -> _. reflexivity. }
    rewrite !(split_cons c), Hends, IH. reflexivity.
Qed.

(** The [strip] before [split] changes nothing. *)
Lemma strip_split s : Py.split (Py.strip s) = Py.split s.
Proof. unfold Py.strip. rewrite rstrip_split, lstrip_split. reflexivity. Qed.

(** ** More on the manifest parser *)

Lemma entries_of_length normalize manifest entries :
  entries_of normalize manifest = Ok entries -> length entries = length manifest.
Proof.
  revert entries. induction manifest as [| line rest IH]; intros entries; simpl.
  - intros [= <-]. reflexivity.
  - destruct (entry_of_line normalize line) as [entry | e]; [| discriminate].
    destruct (entries_of normalize rest) as [entries' | e]; [| discriminate].
    intros [= <-]. simpl. rewrite (IH entries'); reflexivity.
Qed.

Lemma refs_length entries :
  length (binary_refs entries) + length (snap_refs entries) = length entries.
Proof.
  induction entries as [| [name | name channel] entries IH]; simpl; lia.
Qed.

(** What the parser returns, as entries. *)
Lemma parse_manifest_Ok_inv manifest binaries snaps :
  parse_manifest manifest = Ok (binaries, snaps) ->
  exists entries,
    entries_of (fun name => Py.replace name "snap:" "") manifest = Ok entries
    /\ binaries = binary_refs entries /\ snaps = snap_refs entries.
Proof.
  intros Hparse. pose proof (parse_lines_entries manifest [] []) as Hentries.
  fold (parse_manifest manifest) in Hentries. rewrite Hparse in Hentries.
  destruct (entries_of _ manifest) as [entries | e]; [| discriminate].
  exists entries. simpl in Hentries. injection Hentries as -> ->. auto.
Qed.

(** X1. A manifest that parses gives exactly one entry for each of its
    lines: no line is skipped. *)
Theorem one_entry_per_line manifest binaries snaps :
  parse_manifest manifest = Ok (binaries, snaps) ->
  length binaries + length snaps = length manifest.
Proof.
  intros Hparse.
  apply parse_manifest_Ok_inv in Hparse as (entries & Hentries & -> & ->).
  rewrite refs_length. apply (entries_of_length _ _ _ Hentries).
Qed.

Lemma one_entry_per_line_witness :
  parse_manifest Scenario.manifest = Ok (["bash"], [("core20", "stable")])
  /\ length ["bash"] + length [("core20", "stable")] = length Scenario.manifest.
Proof.
  split; [reflexivity |].
  exact (one_entry_per_line Scenario.manifest ["bash"] [("core20", "stable")] eq_refl).
Defined.

Lemma replace_from_no_space old s :
  no_space s = true ->
  forall skip, no_space (Py.replace_from old "" skip s) = true.
Proof.
  induction s as [| c s IH]; intros Hs skip; [reflexivity |].
  simpl in Hs. apply andb_true_iff in Hs as [Hc Hs].
  destruct skip as [| k]; [| apply (IH Hs)].
  rewrite replace_from_cons. destruct (String.prefix old (String c s)).
  - rewrite append_nil_l. apply (IH Hs).
  - simpl. rewrite Hc. apply (IH Hs).
Qed.

Lemma entry_of_line_fields line entry :
  entry_of_line (fun name => Py.replace name "snap:" "") line = Ok entry ->
  entry_fields entry = true.
Proof.
  unfold entry_of_line.
  pose proof (split_fields_are_fields (Py.strip line)) as Hfields.
  destruct (Py.contains "snap:" line);
    destruct (Py.split (Py.strip line)) as [| f1 [| f2 [| f3 [| f4 fs]]]];
    try discriminate; intros [= <-];
    repeat match goal with
           | H : Forall _ (_ :: _) |- _ => inversion H; clear H; subst
           end; simpl.
  - apply andb_true_iff. split; [| assumption].
    apply replace_from_no_space, is_field_no_space. assumption.
  - assumption.
Qed.

Lemma entries_of_fields manifest :
  forall entries,
    entries_of (fun name => Py.replace name "snap:" "") manifest = Ok entries ->
    Forall (fun entry => entry_fields entry = true) entries.
Proof.
  induction manifest as [| line rest IH]; intros entries; simpl.
  - intros [= <-]. constructor.
  - destruct (entry_of_line _ line) as [entry | e] eqn:Hline; [| discriminate].
    destruct (entries_of _ rest) as [entries' | e]; [| discriminate].
    intros [= <-]. constructor; [exact (entry_of_line_fields _ _ Hline) | auto].
Qed.

(** X2. The names a manifest gives are fields of its lines: a binary package
    name is not empty and has no white space; a snap's channel is not empty
    and has no white space, and its name has no white space. *)
Theorem parsed_names_are_fields manifest binaries snaps :
  parse_manifest manifest = Ok (binaries, snaps) ->
  Forall (fun name => is_field name = true) binaries
  /\ Forall (fun snap => no_space (fst snap) = true /\ is_field (snd snap) = true) snaps.
Proof.
  intros Hparse.
  apply parse_manifest_Ok_inv in Hparse as (entries & Hentries & -> & ->).
  apply entries_of_fields in Hentries.
  induction Hentries as [| [name | name channel] entries Hentry _ [IHb IHs]]; simpl.
  - split; constructor.
  - split; [constructor; assumption | assumption].
  - simpl in Hentry. apply andb_true_iff in Hentry.
    split; [assumption | constructor; assumption].
Qed.

Lemma parsed_names_are_fields_witness :
  parse_manifest Scenario.manifest = Ok (["bash"], [("core20", "stable")])
  /\ Forall (fun name => is_field name = true) ["bash"]
  /\ Forall (fun snap => no_space (fst snap) = true /\ is_field (snd snap) = true)
            [("core20", "stable")].
Proof.
  split; [reflexivity |].
  exact (parsed_names_are_fields Scenario.manifest ["bash"] [("core20", "stable")]
           eq_refl).
Defined.

Lemma blank_lstrip s : blank s = true -> Py.lstrip s = "".
Proof.
  induction s as [| c s IH]; [reflexivity |].
  simpl. destruct (Py.isspace c); [exact IH | discriminate].
Qed.

Lemma blank_no_snap s : blank s = true -> Py.contains "snap:" s = false.
Proof.
  induction s as [| c s IH]; [reflexivity |].
  simpl blank. intros Hblank. apply andb_true_iff in Hblank as [Hc Hs].
  rewrite contains_cons, prefix_cons, (IH Hs).
  destruct (Ascii.eqb_spec "s" c) as [<- | _]; [discriminate | reflexivity].
Qed.

Lemma blank_line_raises normalize line :
  blank line = true -> entry_of_line normalize line = Raise ValueError.
Proof.
  intros Hblank. unfold entry_of_line, Py.strip.
  rewrite (blank_no_snap _ Hblank), (blank_lstrip _ Hblank). reflexivity.
Qed.

Lemma entries_of_blank normalize manifest :
  Exists (fun line => blank line = true) manifest ->
  exists e, entries_of normalize manifest = Raise e.
Proof.
  induction 1 as [line rest Hblank | line rest _ [e IH]]; simpl.
  - rewrite (blank_line_raises _ _ Hblank). eauto.
  - destruct (entry_of_line normalize line); [rewrite IH |]; eauto.
Qed.

(** X3. A manifest with a blank line (empty, or white space only) does not
    parse: the parser raises [ValueError] and the run ends in the world it
    started in, wherever the blank line is. *)
Theorem blank_line_aborts manifest :
  Exists (fun line => blank line = true) manifest ->
  parse_manifest manifest = Raise ValueError
  /\ forall (services : Services) series architecture ppas lp_user
            archive_manifest_filename w,
      ubuntu_manifest_archive_diff series manifest architecture ppas lp_user
        archive_manifest_filename w
      = (w, Raise ValueError).
Proof.
  intros Hblank.
  destruct (entries_of_blank (fun name => Py.replace name "snap:" "") _ Hblank)
    as [e Hentries].
  pose proof (parse_lines_entries manifest [] []) as Hparse.
  fold (parse_manifest manifest) in Hparse. rewrite Hentries in Hparse.
  split; [exact Hparse |].
  intros services series architecture ppas lp_user path w.
  unfold ubuntu_manifest_archive_diff. rewrite Hparse. reflexivity.
Qed.

(** A manifest that ends with an empty line. *)
Lemma blank_line_aborts_witness :
  Exists (fun line => blank line = true) ["bash 5.0-6" +:+ Py.nl; Py.nl]
  /\ parse_manifest ["bash 5.0-6" +:+ Py.nl; Py.nl] = Raise ValueError
  /\ forall (services : Services) series architecture ppas lp_user
            archive_manifest_filename w,
      ubuntu_manifest_archive_diff series ["bash 5.0-6" +:+ Py.nl; Py.nl]
        architecture ppas lp_user archive_manifest_filename w
      = (w, Raise ValueError).
Proof.
  assert (Hblank : Exists (fun line => blank line = true)
                          ["bash 5.0-6" +:+ Py.nl; Py.nl]).
  { apply Exists_cons_tl, Exists_cons_hd. reflexivity. }
  split; [exact Hblank |].
  exact (blank_line_aborts ["bash 5.0-6" +:+ Py.nl; Py.nl] Hblank).
Defined.

(** ** The output is a manifest *)

Lemma prefix_contains p s : String.prefix p s = true -> Py.contains p s = true.
Proof.
  intros Hp. destruct s as [| c s].
  - change (Py.contains p "") with (String.prefix p "" || false).
    rewrite Hp. reflexivity.
  - rewrite contains_cons, Hp. reflexivity.
Qed.

(** A string without white space matches before a white space or not at
    all. *)
Lemma prefix_before_space p :
  no_space p = true ->
  forall b c t, Py.isspace c = true ->
    String.prefix p (b +:+ String c t) = String.prefix p b.
Proof.
  induction p as [| x p IH]; intros Hp b c t Hc.
  - rewrite !prefix_nil. reflexivity.
  - simpl in Hp. apply andb_true_iff in Hp as [Hx Hp]. apply negb_true_iff in Hx.
    destruct b as [| y b].
    + rewrite append_nil_l, prefix_cons.
      destruct (Ascii.eqb_spec x c) as [-> | _]; [congruence | reflexivity].
    + rewrite append_cons, !prefix_cons. destruct (Ascii.eqb x y); [| reflexivity].
      apply IH; assumption.
Qed.

(** A field occurs in two strings joined by a white space exactly when it
    occurs in one of them. *)
Lemma contains_across_space p a c rest :
  is_field p = true -> Py.isspace c = true ->
  Py.contains p (a +:+ String c rest) = Py.contains p a || Py.contains p rest.
Proof.
  intros Hfield Hc. pose proof (is_field_no_space _ Hfield) as Hp.
  induction a as [| x a IH].
  - rewrite append_nil_l, contains_cons.
    change (String c rest) with ("" +:+ String c rest) at 1.
    rewrite (prefix_before_space p Hp "" c rest Hc).
    destruct p; [discriminate | reflexivity].
  - rewrite append_cons, !contains_cons, IH.
    change (String x (a +:+ String c rest)) with (String x a +:+ String c rest).
    rewrite (prefix_before_space p Hp (String x a) c rest Hc).
    rewrite orb_assoc. reflexivity.
Qed.

Lemma contains_nothing p : is_field p = true -> Py.contains p "" = false.
Proof. destruct p; [discriminate | reflexivity]. Qed.

Lemma binary_line_entry normalize resolved :
  reads_back_binary resolved = true ->
  entry_of_line normalize (binary_line resolved) = Ok (BinaryPackageRef (fst resolved)).
Proof.
  destruct resolved as [name version]. unfold reads_back_binary, binary_line. simpl fst. simpl snd.
  intros Hback. repeat (apply andb_true_iff in Hback as [Hback ?]).
  repeat match goal with
         | H : negb _ = true |- _ => apply negb_true_iff in H
         end.
  unfold entry_of_line.
  change (name +:+ Py.tab +:+ version +:+ Py.nl)
    with (name +:+ String "009" (version +:+ String "010" "")).
  rewrite (contains_across_space "snap:") by reflexivity.
  rewrite (contains_across_space "snap:") by reflexivity.
  rewrite (contains_nothing "snap:") by reflexivity.
  replace (Py.contains "snap:" name) with false by congruence.
  replace (Py.contains "snap:" version) with false by congruence.
  cbn [orb]. rewrite strip_split.
  rewrite (split_field_app name) by (assumption || reflexivity).
  rewrite split_cons. cbn [Py.isspace Py.ord nat_of_ascii]. 
  change (Py.isspace "009") with true. cbv iota.
  rewrite (split_field_app version) by (assumption || reflexivity).
  reflexivity.
Qed.

Lemma snap_line_entry resolved :
  reads_back_snap resolved = true ->
  entry_of_line (fun name => Py.replace name "snap:" "") (snap_line resolved)
  = Ok (SnapRef (fst (fst resolved)) (snd (fst resolved))).
Proof.
  destruct resolved as [[name channel] revision].
  unfold reads_back_snap, snap_line. simpl fst. simpl snd.
  intros Hback. repeat (apply andb_true_iff in Hback as [Hback ?]).
  repeat match goal with
         | H : negb _ = true |- _ => apply negb_true_iff in H
         end.
  assert (Hprefixed : is_field ("snap:" +:+ name) = true).
  { change ("snap:" +:+ name)
      with (String "s" (String "n" (String "a" (String "p" (String ":" name))))).
    simpl. assumption. }
  unfold entry_of_line.
  rewrite (prefix_contains "snap:") by apply prefix_append.
  rewrite strip_split.
  change ("snap:" +:+ name +:+ Py.tab +:+ channel +:+ Py.tab
          +:+ Json.str revision +:+ Py.nl)
    with ("snap:" +:+ name
          +:+ String "009" (channel +:+ String "009"
                              (Json.str revision +:+ String "010" ""))).
  rewrite <- append_assoc.
  rewrite (split_field_app ("snap:" +:+ name)) by (assumption || reflexivity).
  rewrite split_cons. change (Py.isspace "009") with true. cbv iota.
  rewrite (split_field_app channel) by (assumption || reflexivity).
  rewrite split_cons. change (Py.isspace "009") with true. cbv iota.
  rewrite (split_field_app (Json.str revision)) by (assumption || reflexivity).
  change (Py.split (String "010" "")) with (@nil string).
  rewrite (replace_prefix "s" "nap:" "" name), append_nil_l.
  unfold Py.replace. rewrite replace_absent by assumption. reflexivity.
Qed.

Lemma entries_of_app normalize lines1 lines2 entries1 entries2 :
  entries_of normalize lines1 = Ok entries1 ->
  entries_of normalize lines2 = Ok entries2 ->
  entries_of normalize (lines1 ++ lines2) = Ok (entries1 ++ entries2).
Proof.
  revert entries1. induction lines1 as [| line lines1 IH]; intros entries1; simpl.
  - intros [= <-] H2. exact H2.
  - destruct (entry_of_line normalize line) as [entry | e]; [| discriminate].
    destruct (entries_of normalize lines1) as [entries | e]; [| discriminate].
    intros [= <-] H2. rewrite (IH entries eq_refl H2). reflexivity.
Qed.

Lemma entries_of_map {A} normalize (line : A -> string) (entry : A -> ManifestEntry) xs :
  Forall (fun x => entry_of_line normalize (line x) = Ok (entry x)) xs ->
  entries_of normalize (map line xs) = Ok (map entry xs).
Proof.
  induction 1 as [| x xs Hx _ IH]; simpl; [reflexivity |].
  rewrite Hx, IH. reflexivity.
Qed.

Lemma refs_of_written (versions : list (string * string))
    (revisions : list (string * string * json)) :
  binary_refs (map (fun r => BinaryPackageRef (fst r)) versions
               ++ map (fun r => SnapRef (fst (fst r)) (snd (fst r))) revisions)
  = map fst versions
  /\ snap_refs (map (fun r => BinaryPackageRef (fst r)) versions
                ++ map (fun r => SnapRef (fst (fst r)) (snd (fst r))) revisions)
     = map fst revisions.
Proof.
  induction versions as [| [name version] versions [IHb IHs]]; simpl.
  - induction revisions as [| [[name channel] revision] revisions [IHb IHs]]; simpl.
    + split; reflexivity.
    + rewrite IHb, IHs. split; reflexivity.
  - rewrite IHb, IHs. split; reflexivity.
Qed.

(** X4. The lines the writer writes are a manifest again: when the names,
    versions and channels are fields, the revisions print as fields, and
    [snap:] occurs in no name or version, parsing the written lines gives
    back the names of the binary packages, and the names and channels of the
    snaps, in their order. *)
Theorem written_lines_read_back versions revisions :
  Forall (fun resolved => reads_back_binary resolved = true) versions ->
  Forall (fun resolved => reads_back_snap resolved = true) revisions ->
  parse_manifest (map binary_line versions ++ map snap_line revisions)
  = Ok (map fst versions, map fst revisions).
Proof.
  intros Hversions Hrevisions.
  pose proof (parse_lines_entries
                (map binary_line versions ++ map snap_line revisions) [] [])
    as Hparse.
  fold (parse_manifest (map binary_line versions ++ map snap_line revisions)) in Hparse.
  rewrite (entries_of_app _ _ _
             (map (fun r => BinaryPackageRef (fst r)) versions)
             (map (fun r => SnapRef (fst (fst r)) (snd (fst r))) revisions))
    in Hparse.
  - destruct (refs_of_written versions revisions) as [Hb Hs].
    rewrite Hb, Hs in Hparse. exact Hparse.
  - apply entries_of_map. eapply Forall_impl; [exact Hversions |].
    intros resolved. apply binary_line_entry.
  - apply entries_of_map. eapply Forall_impl; [exact Hrevisions |].
    intros resolved. apply snap_line_entry.
Qed.

(** The output of the end-to-end scenario, read back. *)
Lemma written_lines_read_back_witness :
  (Forall (fun resolved => reads_back_binary resolved = true) [("bash", "5.1-6ubuntu1")]
   /\ Forall (fun resolved => reads_back_snap resolved = true)
             [("core20", "stable", JInt 1234)])
  /\ parse_manifest (map binary_line [("bash", "5.1-6ubuntu1")]
                     ++ map snap_line [("core20", "stable", JInt 1234)])
     = Ok (map fst [("bash", "5.1-6ubuntu1")],
           map fst [("core20", "stable", JInt 1234)]).
Proof.
  assert (Hversions : Forall (fun resolved => reads_back_binary resolved = true)
                             [("bash", "5.1-6ubuntu1")])
    by (repeat constructor).
  assert (Hrevisions : Forall (fun resolved => reads_back_snap resolved = true)
                              [("core20", "stable", JInt 1234)])
    by (repeat constructor).
  split; [split; assumption |].
  exact (written_lines_read_back _ _ Hversions Hrevisions).
Defined.

(** ** More on the snap resolver *)

Section StoreAnswers.

Context `{Services}.

(** One turn of the loop, by what the store answers. *)
Lemma snapstore_version_answer architecture snap resolved w answer :
  store_answer architecture snap = Ok answer ->
  exists w',
    snapstore_version architecture snap resolved w
    = (w', Ok (resolved ++ match answer with
                           | Some revision => [(fst snap, snd snap, revision)]
                           | None => []
                           end))
    /\ calls w' = calls w ++ [snap_request architecture snap]
    /\ files w' = files w.
Proof.
  destruct snap as [snap_name snap_channel].
  unfold store_answer, snapstore_version, snap_request, revision_of. simpl fst. simpl snd.
  unfold bind, remote, lift, print, ret.
  destruct (requests_post _ _ _) as [response | e]; [| discriminate].
  destruct (ok response); simpl.
  - destruct (json_body response) as [body | e]; [| discriminate].
    destruct (getitem_key body "results") as [results | e]; [| discriminate].
    destruct (getitem_index results 0) as [result0 | e]; [| discriminate].
    destruct (getitem_key result0 "snap") as [snap_info | e]; [| discriminate].
    destruct (getitem_key snap_info "revision") as [revision | e]; [| discriminate].
    intros [= <-]. eexists. repeat split.
  - intros [= <-]. eexists. rewrite app_nil_r. repeat split.
Qed.

Lemma snapstore_version_raises architecture snap resolved w e :
  store_answer architecture snap = Raise e ->
  snd (snapstore_version architecture snap resolved w) = Raise e.
Proof.
  destruct snap as [snap_name snap_channel].
  unfold store_answer, snapstore_version, revision_of. simpl fst. simpl snd.
  unfold bind, remote, lift, print, ret.
  destruct (requests_post _ _ _) as [response | e']; [| intros [= ->]; reflexivity].
  destruct (ok response); simpl; [| discriminate].
  destruct (json_body response) as [body | e']; [| intros [= ->]; reflexivity].
  destruct (getitem_key body "results") as [results | e']; [| intros [= ->]; reflexivity].
  destruct (getitem_index results 0) as [result0 | e']; [| intros [= ->]; reflexivity].
  destruct (getitem_key result0 "snap") as [snap_info | e']; [| intros [= ->]; reflexivity].
  destruct (getitem_key snap_info "revision") as [revision | e'];
    [discriminate | intros [= ->]; reflexivity].
Qed.

Lemma snapstore_version_Ok_inv architecture snap resolved w w' resolved' :
  snapstore_version architecture snap resolved w = (w', Ok resolved') ->
  exists answer,
    store_answer architecture snap = Ok answer
    /\ resolved' = resolved ++ match answer with
                               | Some revision => [(fst snap, snd snap, revision)]
                               | None => []
                               end.
Proof.
  intros Hrun. destruct (store_answer architecture snap) as [answer | e] eqn:Hanswer.
  - destruct (snapstore_version_answer architecture snap resolved w answer Hanswer)
      as (w1 & Hrun1 & _).
    exists answer. split; [reflexivity | congruence].
  - apply (snapstore_version_raises architecture snap resolved w) in Hanswer.
    rewrite Hrun in Hanswer. discriminate.
Qed.

Lemma resolved_snaps_cons snap snaps answer answers :
  resolved_snaps (snap :: snaps) (answer :: answers)
  = match answer with
    | Some revision => [(fst snap, snd snap, revision)]
    | None => []
    end ++ resolved_snaps snaps answers.
Proof. destruct answer; reflexivity. Qed.

Lemma snapstore_versions_answers architecture snaps answers :
  Forall2 (fun snap answer => store_answer architecture snap = Ok answer) snaps answers ->
  forall resolved w,
  exists w',
    for_each snaps (snapstore_version architecture) resolved w
    = (w', Ok (resolved ++ resolved_snaps snaps answers))
    /\ calls w' = calls w ++ map (snap_request architecture) snaps
    /\ files w' = files w.
Proof.
  induction 1 as [| snap answer snaps answers Hanswer _ IH]; intros resolved w.
  - exists w. simpl. rewrite !app_nil_r. repeat split.
  - destruct (snapstore_version_answer architecture snap resolved w answer Hanswer)
      as (w1 & Hstep & Hcalls1 & Hfiles1).
    destruct (IH (resolved ++ match answer with
                              | Some revision => [(fst snap, snd snap, revision)]
                              | None => []
                              end) w1)
      as (w' & Hrest & Hcalls & Hfiles).
    exists w'. cbn [for_each]. rewrite (bind_Ok _ _ _ _ _ Hstep), Hrest.
    rewrite resolved_snaps_cons, <- app_assoc. split; [reflexivity |].
    split; [| congruence].
    rewrite Hcalls, Hcalls1, <- app_assoc. reflexivity.
Qed.

Lemma snapstore_versions_Ok_inv architecture snaps :
  forall resolved w w' resolved',
    for_each snaps (snapstore_version architecture) resolved w = (w', Ok resolved') ->
    exists answers,
      Forall2 (fun snap answer => store_answer architecture snap = Ok answer)
              snaps answers
      /\ resolved' = resolved ++ resolved_snaps snaps answers.
Proof.
  induction snaps as [| snap snaps IH]; intros resolved w w' resolved' Hrun.
  - simpl in Hrun. injection Hrun as <- <-. exists [].
    simpl. rewrite app_nil_r. split; [constructor | reflexivity].
  - cbn [for_each] in Hrun.
    apply bind_Ok_inv in Hrun as (w1 & resolved1 & Hstep & Hrest).
    apply snapstore_version_Ok_inv in Hstep as (answer & Hanswer & ->).
    apply IH in Hrest as (answers & Hanswers & ->).
    exists (answer :: answers). split; [constructor; assumption |].
    rewrite resolved_snaps_cons, <- app_assoc. reflexivity.
Qed.

Lemma resolved_snaps_sublist snaps answers :
  sublist (map fst (resolved_snaps snaps answers)) snaps.
Proof.
  revert answers. induction snaps as [| [name channel] snaps IH]; intros answers.
  - destruct answers; constructor.
  - destruct answers as [| [revision |] answers]; simpl.
    + apply sublist_nil_l.
    + apply sublist_skip. apply IH.
    + apply sublist_cons. apply IH.
Qed.

(** X5. When the store answers for every snap, with a revision or with a
    response that is not a success, the resolver returns the snaps that have
    a revision, with it, in the order of its input; it has sent one refresh
    request for each snap of its input, in that order, and has left the
    files alone. *)
Theorem snapstore_versions_by_answers architecture snaps answers w :
  Forall2 (fun snap answer => store_answer architecture snap = Ok answer) snaps answers ->
  exists w',
    _get_snapstore_versions snaps architecture w
    = (w', Ok (resolved_snaps snaps answers))
    /\ calls w' = calls w ++ map (snap_request architecture) snaps
    /\ files w' = files w.
Proof.
  intros Hanswers. unfold _get_snapstore_versions.
  destruct (snapstore_versions_answers architecture snaps answers Hanswers [] w)
    as (w' & Hrun & Hcalls & Hfiles).
  exists w'. rewrite Hrun. repeat split; assumption.
Qed.

(** X6. Whenever the snap resolver returns, the names and channels of its
    entries are a sublist of its input: at most one entry for each snap, in
    the order of the input. *)
Theorem resolved_snaps_in_input_order architecture snaps w w' resolved :
  _get_snapstore_versions snaps architecture w = (w', Ok resolved) ->
  sublist (map fst resolved) snaps /\ length resolved <= length snaps.
Proof.
  unfold _get_snapstore_versions. intros Hrun.
  apply snapstore_versions_Ok_inv in Hrun as (answers & _ & ->).
  simpl. pose proof (resolved_snaps_sublist snaps answers) as Hsub.
  split; [exact Hsub |].
  apply sublist_length in Hsub. rewrite length_map in Hsub. exact Hsub.
Qed.

End StoreAnswers.

(** ** A snap the store refuses *)

Section RefusedSnap.

Context `{Services}.

Lemma refused_answer architecture snap_name snap_channel response :
  requests_post SNAP_REFRESH_URL (snap_request_headers architecture)
                (snap_request_data snap_name snap_channel) = Ok response ->
  ok response = false ->
  store_answer architecture (snap_name, snap_channel) = Ok None.
Proof.
  intros Hpost Hfailed. unfold store_answer. simpl fst. simpl snd.
  rewrite Hpost, Hfailed. reflexivity.
Qed.

Lemma resolved_snaps_app snaps1 answers1 snaps2 answers2 :
  length snaps1 = length answers1 ->
  resolved_snaps (snaps1 ++ snaps2) (answers1 ++ answers2)
  = resolved_snaps snaps1 answers1 ++ resolved_snaps snaps2 answers2.
Proof.
  revert answers1. induction snaps1 as [| snap snaps1 IH]; intros [| answer answers1] Hlength;
    try discriminate; [reflexivity |].
  rewrite <- !app_comm_cons, !resolved_snaps_cons, IH, app_assoc; [reflexivity |].
  simpl in Hlength. lia.
Qed.

(** A snap the store has a revision of is among the entries. *)
Lemma resolved_snaps_member architecture snaps answers later revision :
  Forall2 (fun snap answer => store_answer architecture snap = Ok answer) snaps answers ->
  In later snaps ->
  store_answer architecture later = Ok (Some revision) ->
  In (fst later, snd later, revision) (resolved_snaps snaps answers).
Proof.
  induction 1 as [| snap answer snaps answers Hanswer _ IH]; intros Hin Hlater;
    [destruct Hin |].
  rewrite resolved_snaps_cons. apply in_or_app.
  destruct Hin as [-> | Hin].
  - left. rewrite Hlater in Hanswer. injection Hanswer as <-. left. reflexivity.
  - right. apply IH; assumption.
Qed.

(** C5. A snap whose refresh request gets a non-success response is
    requested once and leaves the list of resolved snaps as it was; the
    resolver goes on with the snaps after it.  It ends as it would if that
    snap were not in its input.  When the store answers for the other snaps,
    the resolver returns the entries of the snaps before it followed by the
    entries of the snaps after it, and has sent a request for every snap of
    its input, those after the refused one included.  Whenever the resolver
    returns, a snap after the refused one that the store has a revision of
    is in the result, with that revision. *)
Theorem failed_snap_is_skipped architecture before snap_name snap_channel after response :
  requests_post SNAP_REFRESH_URL (snap_request_headers architecture)
                (snap_request_data snap_name snap_channel) = Ok response ->
  ok response = false ->
  (forall resolved w,
   exists w',
     snapstore_version architecture (snap_name, snap_channel) resolved w
     = (w', Ok resolved)
     /\ calls w' = calls w ++ [snap_request architecture (snap_name, snap_channel)])
  /\ (forall w,
        snd (_get_snapstore_versions (before ++ (snap_name, snap_channel) :: after)
                                     architecture w)
        = snd (_get_snapstore_versions (before ++ after) architecture w))
  /\ (forall answers_before answers_after w,
        Forall2 (fun snap answer => store_answer architecture snap = Ok answer)
                before answers_before ->
        Forall2 (fun snap answer => store_answer architecture snap = Ok answer)
                after answers_after ->
        exists w',
          _get_snapstore_versions (before ++ (snap_name, snap_channel) :: after)
                                  architecture w
          = (w', Ok (resolved_snaps before answers_before
                     ++ resolved_snaps after answers_after))
          /\ calls w'
             = calls w
               ++ map (snap_request architecture)
                      (before ++ (snap_name, snap_channel) :: after))
  /\ (forall later revision w w' resolved,
        In later after ->
        store_answer architecture later = Ok (Some revision) ->
        _get_snapstore_versions (before ++ (snap_name, snap_channel) :: after)
                                architecture w
        = (w', Ok resolved) ->
        In (fst later, snd later, revision) resolved).
Proof.
  intros Hpost Hfailed.
  pose proof (refused_answer architecture snap_name snap_channel response Hpost Hfailed)
    as Hrefused.
  assert (Hstep : forall resolved w,
    exists w',
      snapstore_version architecture (snap_name, snap_channel) resolved w
      = (w', Ok resolved)
      /\ calls w' = calls w ++ [snap_request architecture (snap_name, snap_channel)]).
  { intros resolved w.
    destruct (snapstore_version_answer architecture (snap_name, snap_channel)
                resolved w None Hrefused) as (w' & Hrun & Hcalls & _).
    rewrite app_nil_r in Hrun. exists w'. split; assumption. }
  split; [exact Hstep | split; [| split]].
  - intros w. unfold _get_snapstore_versions.
    apply for_each_skip.
    + intros y s. apply snapstore_version_same_outcome.
    + intros resolved w0. destruct (Hstep resolved w0) as (w' & Hrun & _).
      rewrite Hrun. reflexivity.
  - intros answers_before answers_after w Hbefore Hafter.
    assert (Hall : Forall2 (fun snap answer => store_answer architecture snap = Ok answer)
                     (before ++ (snap_name, snap_channel) :: after)
                     (answers_before ++ None :: answers_after)).
    { apply Forall2_app; [exact Hbefore | constructor; assumption]. }
    destruct (snapstore_versions_answers architecture _ _ Hall [] w)
      as (w' & Hrun & Hcalls & _).
    exists w'. unfold _get_snapstore_versions. rewrite Hrun. split; [| exact Hcalls].
    rewrite app_nil_l, resolved_snaps_app by (apply (Forall2_length _ _ _ Hbefore)).
    reflexivity.
  - intros later revision w w' resolved Hin Hlater Hrun.
    unfold _get_snapstore_versions in Hrun.
    apply snapstore_versions_Ok_inv in Hrun as (answers & Hanswers & ->).
    apply Forall2_app_inv_l in Hanswers
      as (answers_before & answers_rest & Hbefore & Hrest & ->).
    inversion Hrest as [| ? answer ? answers_after _ Hafter]; subst.
    rewrite app_nil_l, resolved_snaps_app by (apply (Forall2_length _ _ _ Hbefore)).
    apply in_or_app. right. rewrite resolved_snaps_cons. apply in_or_app. right.
    apply (resolved_snaps_member architecture after answers_after later revision);
      assumption.
Qed.

End RefusedSnap.

(** core18 is refused by the store; rust before it and go after it are
    requested, resolved and returned. *)
Lemma failed_snap_is_skipped_witness :
  (@requests_post Scenario.services_with_gaps SNAP_REFRESH_URL
     (snap_request_headers "amd64") (snap_request_data "core18" "stable")
   = Ok {| ok := false; json_body := Raise (RemoteError "not JSON") |}
   /\ ok {| ok := false; json_body := Raise (RemoteError "not JSON") |} = false)
  /\ (exists w',
        @_get_snapstore_versions Scenario.services_with_gaps
          ([("rust", "stable")] ++ ("core18", "stable") :: [("go", "edge")])
          "amd64" Demo.empty_world
        = (w', Ok [("rust", "stable", JInt 1234); ("go", "edge", JInt 1234)])
        /\ calls w'
           = calls Demo.empty_world
             ++ [snap_request "amd64" ("rust", "stable");
                 snap_request "amd64" ("core18", "stable");
                 snap_request "amd64" ("go", "edge")])
  /\ (forall w w' resolved,
        @_get_snapstore_versions Scenario.services_with_gaps
          ([("rust", "stable")] ++ ("core18", "stable") :: [("go", "edge")])
          "amd64" w
        = (w', Ok resolved) ->
        In ("go", "edge", JInt 1234) resolved).
Proof.
  split; [split; reflexivity |].
  destruct (@failed_snap_is_skipped Scenario.services_with_gaps "amd64"
              [("rust", "stable")] "core18" "stable" [("go", "edge")]
              {| ok := false; json_body := Raise (RemoteError "not JSON") |}
              eq_refl eq_refl)
    as (_ & _ & Hreturned & Hlater).
  split.
  - apply (Hreturned [Some (JInt 1234)] [Some (JInt 1234)] Demo.empty_world);
      repeat constructor.
  - intros w w' resolved Hrun.
    apply (Hlater ("go", "edge") (JInt 1234) w w' resolved);
      [left; reflexivity | reflexivity | exact Hrun].
Defined.

(** rust has a revision, core18 is refused. *)
Lemma snapstore_versions_by_answers_witness :
  Forall2 (fun snap answer =>
             @store_answer Scenario.services_with_gaps "amd64" snap = Ok answer)
          [("rust", "stable"); ("core18", "stable")] [Some (JInt 1234); None]
  /\ exists w',
      @_get_snapstore_versions Scenario.services_with_gaps
        [("rust", "stable"); ("core18", "stable")] "amd64" Demo.empty_world
      = (w', Ok (resolved_snaps [("rust", "stable"); ("core18", "stable")]
                                [Some (JInt 1234); None]))
      /\ calls w'
         = calls Demo.empty_world
           ++ map (snap_request "amd64") [("rust", "stable"); ("core18", "stable")]
      /\ files w' = files Demo.empty_world.
Proof.
  assert (Hanswers :
    Forall2 (fun snap answer =>
               @store_answer Scenario.services_with_gaps "amd64" snap = Ok answer)
            [("rust", "stable"); ("core18", "stable")] [Some (JInt 1234); None])
    by (repeat constructor).
  split; [exact Hanswers |].
  exact (@snapstore_versions_by_answers Scenario.services_with_gaps "amd64" _ _
           Demo.empty_world Hanswers).
Defined.

Lemma resolved_snaps_in_input_order_witness :
  @_get_snapstore_versions Scenario.services_with_gaps
    [("rust", "stable"); ("core18", "stable"); ("go", "edge")] "amd64"
    Demo.empty_world
  = (fst (@_get_snapstore_versions Scenario.services_with_gaps
            [("rust", "stable"); ("core18", "stable"); ("go", "edge")] "amd64"
            Demo.empty_world),
     Ok [("rust", "stable", JInt 1234); ("go", "edge", JInt 1234)])
  /\ sublist (map fst [("rust", "stable", JInt 1234); ("go", "edge", JInt 1234)])
             [("rust", "stable"); ("core18", "stable"); ("go", "edge")]
  /\ length [("rust", "stable", JInt 1234); ("go", "edge", JInt 1234)]
     <= length [("rust", "stable"); ("core18", "stable"); ("go", "edge")].
Proof.
  assert (Hrun :
    @_get_snapstore_versions Scenario.services_with_gaps
      [("rust", "stable"); ("core18", "stable"); ("go", "edge")] "amd64"
      Demo.empty_world
    = (fst (@_get_snapstore_versions Scenario.services_with_gaps
              [("rust", "stable"); ("core18", "stable"); ("go", "edge")] "amd64"
              Demo.empty_world),
       Ok [("rust", "stable", JInt 1234); ("go", "edge", JInt 1234)])).
  { vm_compute. reflexivity. }
  split; [exact Hrun |].
  exact (@resolved_snaps_in_input_order Scenario.services_with_gaps _ _ _ _ _ Hrun).
Defined.

Section StoreFailures.

Context `{Services}.

Lemma run_after_parse series manifest architecture ppas lp_user path names snaps w :
  parse_manifest manifest = Ok (names, snaps) ->
  ubuntu_manifest_archive_diff series manifest architecture ppas lp_user path w
  = bind (get_archive_versions series names architecture ppas lp_user)
         (fun versions =>
            bind (_get_snapstore_versions snaps architecture)
                 (fun revisions =>
                    bind (write_manifest path versions revisions)
                         (fun _ => print ("Manifest written to " +:+ path +:+ "."))))
         w.
Proof.
  intros Hparse. unfold ubuntu_manifest_archive_diff. rewrite Hparse. reflexivity.
Qed.

(** X7. Apart from a response that is not a success, nothing that goes wrong
    with a snap is skipped: when the request raises, the body is not JSON,
    or the body has no [results[0].snap.revision], the exception ends the
    run, and no file has been written. *)
Theorem store_exception_aborts_the_run
    series manifest architecture ppas lp_user archive_manifest_filename
    names before snap after e w w1 versions w2 revisions :
  parse_manifest manifest = Ok (names, before ++ snap :: after) ->
  get_archive_versions series names architecture ppas lp_user w = (w1, Ok versions) ->
  _get_snapstore_versions before architecture w1 = (w2, Ok revisions) ->
  store_answer architecture snap = Raise e ->
  exists w3,
    ubuntu_manifest_archive_diff series manifest architecture ppas lp_user
      archive_manifest_filename w = (w3, Raise e)
    /\ files w3 = files w.
Proof.
  intros Hparse Hversions Hbefore Hanswer.
  pose proof (archive_versions_keep_files series names architecture ppas lp_user w)
    as Hfiles1.
  rewrite Hversions in Hfiles1. simpl in Hfiles1.
  pose proof (snapstore_versions_keep_files (before ++ snap :: after) architecture w1)
    as Hfiles2.
  assert (Hsnaps :
    snd (_get_snapstore_versions (before ++ snap :: after) architecture w1) = Raise e).
  { unfold _get_snapstore_versions in *. rewrite for_each_app.
    rewrite (bind_Ok _ _ _ _ _ Hbefore). cbn [for_each].
    apply bind_Raise_snd, snapstore_version_raises, Hanswer. }
  destruct (_get_snapstore_versions (before ++ snap :: after) architecture w1)
    as [w3 r] eqn:Hrun.
  simpl in Hsnaps, Hfiles2. subst r.
  exists w3. split; [| congruence].
  rewrite (run_after_parse _ _ _ _ _ _ _ _ _ Hparse).
  rewrite (bind_Ok _ _ _ _ _ Hversions).
  apply (bind_Raise _ _ _ _ _ Hrun).
Qed.

End StoreFailures.

(** The store cannot be reached for core20. *)
Lemma store_exception_aborts_the_run_witness :
  (parse_manifest Scenario.manifest = Ok (["bash"], [] ++ ("core20", "stable") :: [])
   /\ @store_answer Outage.services "amd64" ("core20", "stable")
      = Raise (RemoteError "connection refused"))
  /\ exists w3,
      @ubuntu_manifest_archive_diff Outage.services "focal" Scenario.manifest
        "amd64" [] None "archive.manifest" Demo.empty_world
      = (w3, Raise (RemoteError "connection refused"))
      /\ files w3 = files Demo.empty_world.
Proof.
  split; [split; reflexivity |].
  apply (@store_exception_aborts_the_run Outage.services
           "focal" Scenario.manifest "amd64" [] None "archive.manifest"
           ["bash"] [] ("core20", "stable") [] (RemoteError "connection refused")
           Demo.empty_world
           (fst (@get_archive_versions Outage.services "focal" ["bash"]
                   "amd64" [] None Demo.empty_world))
           [("bash", "5.1-6ubuntu1")]
           (fst (@get_archive_versions Outage.services "focal" ["bash"]
                   "amd64" [] None Demo.empty_world))
           []);
    vm_compute; reflexivity.
Defined.

(** ** The end of a run *)

Section EndOfRun.

Context `{Services}.

(** The writer either cannot open the destination, or stores all the
    lines. *)
Lemma write_manifest_outcome path versions revisions w :
  write_manifest path versions revisions w
  = if writable path
    then (with_file path
            (text_of (map binary_line versions ++ map snap_line revisions)) w,
          Ok tt)
    else (w, Raise OSError).
Proof.
  unfold write_manifest. destruct (writable path) eqn:Hwritable.
  - assert (Hopen : open_w path w = (with_file path "" w, Ok tt)).
    { unfold open_w. rewrite Hwritable. reflexivity. }
    rewrite (bind_Ok _ _ _ _ _ Hopen).
    rewrite (bind_Ok _ _ _ (with_file path (text_of (map binary_line versions)) w) tt).
    + rewrite (for_each_ext _ _ (fun x _ => write path (snap_line x)))
        by (intros [[n c] r] [] ?; reflexivity).
      rewrite (write_lines snap_line path revisions (text_of (map binary_line versions)))
        by (simpl; apply lookup_insert_eq).
      unfold with_file. simpl. rewrite insert_insert_eq, text_of_app. reflexivity.
    + rewrite (for_each_ext _ _ (fun x _ => write path (binary_line x)))
        by (intros [n v] [] ?; reflexivity).
      rewrite (write_lines binary_line path versions "")
        by (simpl; apply lookup_insert_eq).
      unfold with_file. simpl. rewrite insert_insert_eq. reflexivity.
  - apply bind_Raise. unfold open_w. rewrite Hwritable. reflexivity.
Qed.

Lemma get_archive_versions_names series names architecture ppas lp_user w w' versions :
  get_archive_versions series names architecture ppas lp_user w = (w', Ok versions) ->
  map fst versions = map (fun name => Py.replace name (":" +:+ architecture) "") names.
Proof.
  unfold get_archive_versions. intros Hrun.
  do 4 (apply bind_Ok_inv in Hrun as (? & ? & _ & Hrun)).
  apply archive_versions_names in Hrun. exact Hrun.
Qed.

(** X8. When the destination cannot be opened for writing, the run ends with
    [OSError] in the world the two resolvers have left: every remote call has
    been made, no file has been changed, and the closing message is not
    printed. *)
Theorem unwritable_destination_aborts
    series manifest architecture ppas lp_user archive_manifest_filename
    names snaps w w1 versions w2 revisions :
  parse_manifest manifest = Ok (names, snaps) ->
  get_archive_versions series names architecture ppas lp_user w = (w1, Ok versions) ->
  _get_snapstore_versions snaps architecture w1 = (w2, Ok revisions) ->
  writable archive_manifest_filename = false ->
  ubuntu_manifest_archive_diff series manifest architecture ppas lp_user
    archive_manifest_filename w = (w2, Raise OSError)
  /\ files w2 = files w.
Proof.
  intros Hparse Hversions Hrevisions Hwritable.
  pose proof (archive_versions_keep_files series names architecture ppas lp_user w)
    as Hfiles1.
  rewrite Hversions in Hfiles1. simpl in Hfiles1.
  pose proof (snapstore_versions_keep_files snaps architecture w1) as Hfiles2.
  rewrite Hrevisions in Hfiles2. simpl in Hfiles2.
  split; [| congruence].
  rewrite (run_after_parse _ _ _ _ _ _ _ _ _ Hparse).
  rewrite (bind_Ok _ _ _ _ _ Hversions), (bind_Ok _ _ _ _ _ Hrevisions).
  apply bind_Raise. rewrite write_manifest_outcome, Hwritable. reflexivity.
Qed.

(** X9. A run that succeeds has parsed the manifest, and has stored at the
    destination one line for each binary package of the manifest, in the
    order of the manifest, under its name without the architecture qualifier
    and with the version the archive resolver has returned for it, followed
    by the lines of exactly the snaps of the manifest for which the store has
    answered with a revision, each with that revision, in the order of the
    manifest; for the other snaps the store has answered with a response that
    is not a success.  The last line printed tells that the manifest is
    written. *)
Theorem successful_run
    series manifest architecture ppas lp_user archive_manifest_filename w w' :
  ubuntu_manifest_archive_diff series manifest architecture ppas lp_user
    archive_manifest_filename w = (w', Ok tt) ->
  exists names snaps versions answers w1 w2,
    parse_manifest manifest = Ok (names, snaps)
    /\ get_archive_versions series names architecture ppas lp_user w = (w1, Ok versions)
    /\ map fst versions
       = map (fun name => Py.replace name (":" +:+ architecture) "") names
    /\ Forall2 (fun snap answer => store_answer architecture snap = Ok answer)
               snaps answers
    /\ _get_snapstore_versions snaps architecture w1
       = (w2, Ok (resolved_snaps snaps answers))
    /\ sublist (map fst (resolved_snaps snaps answers)) snaps
    /\ files w'
       = <[archive_manifest_filename :=
             text_of (map binary_line versions
                      ++ map snap_line (resolved_snaps snaps answers))]> (files w)
    /\ last (stdout w')
       = Some ("Manifest written to " +:+ archive_manifest_filename +:+ ".").
Proof.
  intros Hrun.
  destruct (parse_manifest manifest) as [[names snaps] | e] eqn:Hparse.
  2:{ unfold ubuntu_manifest_archive_diff in Hrun. rewrite Hparse in Hrun.
      discriminate. }
  rewrite (run_after_parse _ _ _ _ _ _ _ _ _ Hparse) in Hrun.
  apply bind_Ok_inv in Hrun as (w1 & versions & Hversions & Hrun).
  apply bind_Ok_inv in Hrun as (w2 & revisions & Hrevisions & Hrun).
  apply bind_Ok_inv in Hrun as (w3 & [] & Hwrite & Hprint).
  pose proof (archive_versions_keep_files series names architecture ppas lp_user w)
    as Hfiles1.
  rewrite Hversions in Hfiles1. simpl in Hfiles1.
  pose proof (snapstore_versions_keep_files snaps architecture w1) as Hfiles2.
  rewrite Hrevisions in Hfiles2. simpl in Hfiles2.
  assert (Hanswers : exists answers,
    Forall2 (fun snap answer => store_answer architecture snap = Ok answer)
            snaps answers
    /\ revisions = resolved_snaps snaps answers).
  { unfold _get_snapstore_versions in Hrevisions.
    apply snapstore_versions_Ok_inv in Hrevisions as (answers & Hanswers & ->).
    exists answers. split; [exact Hanswers | reflexivity]. }
  destruct Hanswers as (answers & Hanswers & ->).
  exists names, snaps, versions, answers, w1, w2.
  rewrite write_manifest_outcome in Hwrite.
  destruct (writable archive_manifest_filename); [| discriminate].
  injection Hwrite as <-. unfold print in Hprint. injection Hprint as <-.
  split; [reflexivity |].
  split; [exact Hversions |].
  split; [exact (get_archive_versions_names _ _ _ _ _ _ _ _ Hversions) |].
  split; [exact Hanswers |].
  split; [exact Hrevisions |].
  split; [apply resolved_snaps_sublist |].
  split.
  - simpl. rewrite Hfiles2, Hfiles1. reflexivity.
  - simpl. apply last_snoc.
Qed.

End EndOfRun.

(** No destination can be opened. *)
Lemma unwritable_destination_aborts_witness :
  (parse_manifest Scenario.manifest = Ok (["bash"], [("core20", "stable")])
   /\ @writable Outage.read_only_services "archive.manifest" = false)
  /\ @ubuntu_manifest_archive_diff Outage.read_only_services "focal"
       Scenario.manifest "amd64" [] None "archive.manifest" Demo.empty_world
     = (fst (@_get_snapstore_versions Outage.read_only_services
               [("core20", "stable")] "amd64"
               (fst (@get_archive_versions Outage.read_only_services "focal" ["bash"]
                       "amd64" [] None Demo.empty_world))),
        Raise OSError)
  /\ files (fst (@_get_snapstore_versions Outage.read_only_services
                   [("core20", "stable")] "amd64"
                   (fst (@get_archive_versions Outage.read_only_services "focal"
                           ["bash"] "amd64" [] None Demo.empty_world))))
     = files Demo.empty_world.
Proof.
  split; [split; reflexivity |].
  apply (@unwritable_destination_aborts Outage.read_only_services
           "focal" Scenario.manifest "amd64" [] None "archive.manifest"
           ["bash"] [("core20", "stable")] Demo.empty_world
           (fst (@get_archive_versions Outage.read_only_services "focal" ["bash"]
                   "amd64" [] None Demo.empty_world))
           [("bash", "5.1-6ubuntu1")] _ [("core20", "stable", JInt 1234)]);
    vm_compute; reflexivity.
Defined.

(** The end-to-end scenario. *)
Lemma successful_run_witness :
  @ubuntu_manifest_archive_diff Scenario.services "focal" Scenario.manifest
    "amd64" [] None "archive.manifest" Demo.empty_world
  = (fst (@ubuntu_manifest_archive_diff Scenario.services "focal" Scenario.manifest
            "amd64" [] None "archive.manifest" Demo.empty_world),
     Ok tt)
  /\ exists names snaps versions answers w1 w2,
      parse_manifest Scenario.manifest = Ok (names, snaps)
      /\ @get_archive_versions Scenario.services "focal" names "amd64" [] None
           Demo.empty_world
         = (w1, Ok versions)
      /\ map fst versions
         = map (fun name => Py.replace name (":" +:+ "amd64") "") names
      /\ Forall2 (fun snap answer =>
                    @store_answer Scenario.services "amd64" snap = Ok answer)
                 snaps answers
      /\ @_get_snapstore_versions Scenario.services snaps "amd64" w1
         = (w2, Ok (resolved_snaps snaps answers))
      /\ sublist (map fst (resolved_snaps snaps answers)) snaps
      /\ files (fst (@ubuntu_manifest_archive_diff Scenario.services "focal"
                       Scenario.manifest "amd64" [] None "archive.manifest"
                       Demo.empty_world))
         = <["archive.manifest" :=
               text_of (map binary_line versions
                        ++ map snap_line (resolved_snaps snaps answers))]>
             (files Demo.empty_world)
      /\ last (stdout (fst (@ubuntu_manifest_archive_diff Scenario.services "focal"
                              Scenario.manifest "amd64" [] None "archive.manifest"
                              Demo.empty_world)))
         = Some ("Manifest written to " +:+ "archive.manifest" +:+ ".").
Proof.
  assert (Hrun :
    @ubuntu_manifest_archive_diff Scenario.services "focal" Scenario.manifest
      "amd64" [] None "archive.manifest" Demo.empty_world
    = (fst (@ubuntu_manifest_archive_diff Scenario.services "focal" Scenario.manifest
              "amd64" [] None "archive.manifest" Demo.empty_world),
       Ok tt)).
  { vm_compute. reflexivity. }
  split; [exact Hrun |].
  exact (@successful_run Scenario.services _ _ _ _ _ _ _ _ Hrun).
Defined.

(** ** More on the archive resolver *)

Section Setup.

Context `{Services}.

(** The four calls before the first package. *)
Lemma get_archive_versions_after_setup
    series names architecture ppas lp_user launchpad ubuntu lp_series das w :
  login_answer lp_user = Ok launchpad ->
  distributions launchpad "ubuntu" = Ok ubuntu ->
  getSeries ubuntu series = Ok lp_series ->
  getDistroArchSeries lp_series architecture = Ok das ->
  get_archive_versions series names architecture ppas lp_user w
  = for_each names (archive_version launchpad ubuntu das architecture ppas) []
      (after_calls [login_call lp_user; Distributions launchpad "ubuntu";
                    GetSeries ubuntu series; GetDistroArchSeries lp_series architecture]
                   w).
Proof.
  unfold login_answer, login_call, get_archive_versions.
  intros Hlogin Hdistribution Hseries Hdas.
  unfold bind at 1.
  destruct (truthy lp_user); unfold remote at 1; rewrite Hlogin;
    unfold bind at 1, remote at 1; rewrite Hdistribution;
    unfold bind at 1, remote at 1; rewrite Hseries;
    unfold bind at 1, remote at 1; rewrite Hdas;
    unfold after_calls; simpl; rewrite <- !app_assoc; reflexivity.
Qed.

(** X10. Without package names, the resolver still logs in and looks up the
    distribution, the series and the architecture series, with exactly these
    four calls, and returns the empty list; the supplementary repositories
    are not looked at. *)
Theorem no_package_names
    series architecture ppas lp_user launchpad ubuntu lp_series das w :
  login_answer lp_user = Ok launchpad ->
  distributions launchpad "ubuntu" = Ok ubuntu ->
  getSeries ubuntu series = Ok lp_series ->
  getDistroArchSeries lp_series architecture = Ok das ->
  get_archive_versions series [] architecture ppas lp_user w
  = (after_calls [login_call lp_user; Distributions launchpad "ubuntu";
                  GetSeries ubuntu series; GetDistroArchSeries lp_series architecture]
                 w,
     Ok []).
Proof.
  intros Hlogin Hdistribution Hseries Hdas.
  rewrite (get_archive_versions_after_setup _ _ _ _ _ _ _ _ _ _
             Hlogin Hdistribution Hseries Hdas).
  reflexivity.
Qed.

Lemma unknown_series_aborts_setup
    series names architecture ppas lp_user launchpad ubuntu e w :
  login_answer lp_user = Ok launchpad ->
  distributions launchpad "ubuntu" = Ok ubuntu ->
  getSeries ubuntu series = Raise e ->
  get_archive_versions series names architecture ppas lp_user w
  = (after_calls [login_call lp_user; Distributions launchpad "ubuntu";
                  GetSeries ubuntu series] w,
     Raise e).
Proof.
  unfold login_answer, login_call, get_archive_versions.
  intros Hlogin Hdistribution Hseries.
  unfold bind at 1.
  destruct (truthy lp_user); unfold remote at 1; rewrite Hlogin;
    unfold bind at 1, remote at 1; rewrite Hdistribution;
    unfold bind at 1, remote at 1; rewrite Hseries;
    unfold after_calls; simpl; rewrite <- !app_assoc; reflexivity.
Qed.

(** X11. A series that Launchpad does not know ends the resolver with the
    exception of the lookup, after the three calls up to it and before any
    package is looked at, whatever the package names are. *)
Theorem unknown_series_aborts
    series names architecture ppas lp_user launchpad ubuntu e w :
  login_answer lp_user = Ok launchpad ->
  distributions launchpad "ubuntu" = Ok ubuntu ->
  getSeries ubuntu series = Raise e ->
  get_archive_versions series names architecture ppas lp_user w
  = (after_calls [login_call lp_user; Distributions launchpad "ubuntu";
                  GetSeries ubuntu series] w,
     Raise e).
Proof.
  unfold login_answer, login_call, get_archive_versions.
  intros Hlogin Hdistribution Hseries.
  unfold bind at 1.
  destruct (truthy lp_user); unfold remote at 1; rewrite Hlogin;
    unfold bind at 1, remote at 1; rewrite Hdistribution;
    unfold bind at 1, remote at 1; rewrite Hseries;
    unfold after_calls; simpl; rewrite <- !app_assoc; reflexivity.
Qed.









(** The loop of lines 176-179, when the comparator answers for the versions
    it is given and orders them as a total preorder. *)
Lemma find_max_version_greatest_among (cmp : string -> string -> Z) found :
  (forall a b, In a ("0.0.0" :: found) -> In b ("0.0.0" :: found) ->
               version_compare a b = Ok (cmp a b)) ->
  (forall a, In a ("0.0.0" :: found) -> (cmp a a <= 0)%Z) ->
  (forall a b c,
     In a ("0.0.0" :: found) -> In b ("0.0.0" :: found) -> In c ("0.0.0" :: found) ->
     (cmp a b <= 0)%Z -> (cmp c b > 0)%Z -> (cmp a c <= 0)%Z) ->
  forall w,
  exists max_version,
    find_max_version found w = (w, Ok max_version)
    /\ In max_version ("0.0.0" :: found)
    /\ forall v, In v ("0.0.0" :: found) -> (cmp v max_version <= 0)%Z.
Proof.
  intros Hcompare Hrefl Htrans w. unfold find_max_version.
  assert (Hloop : forall rest seen current,
    "0.0.0" :: found = seen ++ rest ->
    In current seen ->
    (forall v, In v seen -> (cmp v current <= 0)%Z) ->
    exists max_version,
      for_each rest
        (fun candidate max_version =>
           let* c := lift (version_compare candidate max_version) in
           if (c >? 0)%Z then ret candidate else ret max_version)
        current w
      = (w, Ok max_version)
      /\ In max_version (seen ++ rest)
      /\ forall v, In v (seen ++ rest) -> (cmp v max_version <= 0)%Z).
  { induction rest as [| candidate rest IH]; intros seen current Hall Hin Hmax.
    - exists current. rewrite app_nil_r. repeat split; assumption.
    - assert (Hseen : forall v, In v seen -> In v ("0.0.0" :: found)).
      { intros v Hv. rewrite Hall. apply in_or_app. left. exact Hv. }
      assert (Hcandidate : In candidate ("0.0.0" :: found)).
      { rewrite Hall. apply in_or_app. right. left. reflexivity. }
      cbn [for_each]. unfold bind at 1. unfold bind at 1, lift at 1.
      rewrite (Hcompare candidate current Hcandidate (Hseen _ Hin)).
      assert (Hnext : "0.0.0" :: found = (seen ++ [candidate]) ++ rest)
        by (rewrite <- app_assoc; exact Hall).
      destruct (cmp candidate current >? 0)%Z eqn:Hgt; unfold ret at 1.
      + destruct (IH (seen ++ [candidate]) candidate Hnext) as (m & Hrun & Hm & Hbound).
        * apply in_or_app. right. left. reflexivity.
        * intros v Hv. apply in_app_or in Hv as [Hv | [<- | []]].
          -- apply (Htrans v current candidate); auto. lia.
          -- apply Hrefl, Hcandidate.
        * exists m. rewrite <- app_assoc in Hm, Hbound. repeat split; assumption.
      + destruct (IH (seen ++ [candidate]) current Hnext) as (m & Hrun & Hm & Hbound).
        * apply in_or_app. left. exact Hin.
        * intros v Hv. apply in_app_or in Hv as [Hv | [<- | []]].
          -- apply Hmax, Hv.
          -- lia.
        * exists m. rewrite <- app_assoc in Hm, Hbound. repeat split; assumption. }
  destruct (Hloop found ["0.0.0"] "0.0.0" eq_refl) as (m & Hrun & Hm & Hbound).
  - left. reflexivity.
  - intros v [<- | []]. apply Hrefl. left. reflexivity.
  - exists m. repeat split; assumption.
Qed.

(** X13. When the comparator answers for the versions found and for 0.0.0,
    and orders them as a total preorder, and some version found sorts after
    0.0.0, the version emitted is one of the versions found and no version
    found sorts after it. *)
Theorem max_version_is_a_maximum (cmp : string -> string -> Z) found above w :
  (forall a b, In a ("0.0.0" :: found) -> In b ("0.0.0" :: found) ->
               version_compare a b = Ok (cmp a b)) ->
  (forall a, In a ("0.0.0" :: found) -> (cmp a a <= 0)%Z) ->
  (forall a b c,
     In a ("0.0.0" :: found) -> In b ("0.0.0" :: found) -> In c ("0.0.0" :: found) ->
     (cmp a b <= 0)%Z -> (cmp c b > 0)%Z -> (cmp a c <= 0)%Z) ->
  In above found ->
  (cmp above "0.0.0" > 0)%Z ->
  exists max_version,
    find_max_version found w = (w, Ok max_version)
    /\ In max_version found
    /\ forall v, In v found -> (cmp v max_version <= 0)%Z.
Proof.
  intros Hcompare Hrefl Htrans Habove Hgt.
  destruct (find_max_version_greatest_among cmp found Hcompare Hrefl Htrans w)
    as (m & Hrun & Hm & Hall).
  exists m. split; [exact Hrun | split].
  - destruct Hm as [<- | Hm]; [| exact Hm].
    specialize (Hall above (or_intror Habove)). lia.
  - intros v Hv. apply Hall. right. exact Hv.
Qed.

End Setup.

(** The set-up of the scenario; the repository given is not a repository. *)
Lemma no_package_names_witness :
  (@login_answer Scenario.services None = Ok "launchpad"
   /\ @distributions Scenario.services "launchpad" "ubuntu" = Ok "ubuntu"
   /\ @getSeries Scenario.services "ubuntu" "focal" = Ok "ubuntu/focal"
   /\ @getDistroArchSeries Scenario.services "ubuntu/focal" "amd64"
      = Ok "ubuntu/focal/amd64")
  /\ @get_archive_versions Scenario.services "focal" [] "amd64" ["not a repository"]
       None Demo.empty_world
     = (after_calls [login_call None; Distributions "launchpad" "ubuntu";
                     GetSeries "ubuntu" "focal";
                     GetDistroArchSeries "ubuntu/focal" "amd64"]
                    Demo.empty_world,
        Ok []).
Proof.
  split; [repeat split; reflexivity |].
  exact (@no_package_names Scenario.services "focal" "amd64" ["not a repository"]
           None "launchpad" "ubuntu" "ubuntu/focal" "ubuntu/focal/amd64"
           Demo.empty_world eq_refl eq_refl eq_refl eq_refl).
Defined.

Lemma unknown_series_aborts_witness :
  (@login_answer Outage.no_series_services None = Ok "launchpad"
   /\ @distributions Outage.no_series_services "launchpad" "ubuntu" = Ok "ubuntu"
   /\ @getSeries Outage.no_series_services "ubuntu" "fossa"
      = Raise (RemoteError "no such series"))
  /\ @get_archive_versions Outage.no_series_services "fossa" ["bash"] "amd64" []
       None Demo.empty_world
     = (after_calls [login_call None; Distributions "launchpad" "ubuntu";
                     GetSeries "ubuntu" "fossa"] Demo.empty_world,
        Raise (RemoteError "no such series")).
Proof.
  split; [repeat split; reflexivity |].
  exact (@unknown_series_aborts Outage.no_series_services "fossa" ["bash"] "amd64" []
           None "launchpad" "ubuntu" (RemoteError "no such series")
           Demo.empty_world eq_refl eq_refl eq_refl).
Defined.


(** The versions of the examples, under the comparator of the example
    services: it answers for each pair of them, and orders them. *)
Lemma example_versions_compare a b :
  In a ["0.0.0"; "0.0~git20200101.1a2b3c-1"; "5.1-6ubuntu1"; "5.2-1~ppa1"] ->
  In b ["0.0.0"; "0.0~git20200101.1a2b3c-1"; "5.1-6ubuntu1"; "5.2-1~ppa1"] ->
  @version_compare Scenario.services a b = Ok (debian_cmp a b).
Proof.
  intros Ha Hb. simpl in Ha, Hb.
  repeat (destruct Ha as [<- | Ha]); try contradiction;
    repeat (destruct Hb as [<- | Hb]); try contradiction; vm_compute; reflexivity.
Qed.

Lemma example_versions_refl a :
  In a ["0.0.0"; "0.0~git20200101.1a2b3c-1"; "5.1-6ubuntu1"; "5.2-1~ppa1"] ->
  (debian_cmp a a <= 0)%Z.
Proof.
  intros Ha. simpl in Ha.
  repeat (destruct Ha as [<- | Ha]); try contradiction; vm_compute; discriminate.
Qed.

Lemma example_versions_trans a b c :
  In a ["0.0.0"; "0.0~git20200101.1a2b3c-1"; "5.1-6ubuntu1"; "5.2-1~ppa1"] ->
  In b ["0.0.0"; "0.0~git20200101.1a2b3c-1"; "5.1-6ubuntu1"; "5.2-1~ppa1"] ->
  In c ["0.0.0"; "0.0~git20200101.1a2b3c-1"; "5.1-6ubuntu1"; "5.2-1~ppa1"] ->
  (debian_cmp a b <= 0)%Z -> (debian_cmp c b > 0)%Z -> (debian_cmp a c <= 0)%Z.
Proof.
  intros Ha Hb Hc. simpl in Ha, Hb, Hc.
  repeat (destruct Ha as [<- | Ha]); try contradiction;
    repeat (destruct Hb as [<- | Hb]); try contradiction;
    repeat (destruct Hc as [<- | Hc]); try contradiction;
    vm_compute; intuition congruence.
Qed.

(** Three versions found, one of them before 0.0.0, under the Debian
    order of the example services: the last one is emitted. *)
Lemma max_version_is_a_maximum_witness :
  ((forall a b,
      In a ("0.0.0" :: ["0.0~git20200101.1a2b3c-1"; "5.1-6ubuntu1"; "5.2-1~ppa1"]) ->
      In b ("0.0.0" :: ["0.0~git20200101.1a2b3c-1"; "5.1-6ubuntu1"; "5.2-1~ppa1"]) ->
      @version_compare Scenario.services a b = Ok (debian_cmp a b))
   /\ In "5.1-6ubuntu1" ["0.0~git20200101.1a2b3c-1"; "5.1-6ubuntu1"; "5.2-1~ppa1"]
   /\ (debian_cmp "5.1-6ubuntu1" "0.0.0" > 0)%Z)
  /\ (exists max_version,
        @find_max_version Scenario.services
          ["0.0~git20200101.1a2b3c-1"; "5.1-6ubuntu1"; "5.2-1~ppa1"] Demo.empty_world
        = (Demo.empty_world, Ok max_version)
        /\ In max_version ["0.0~git20200101.1a2b3c-1"; "5.1-6ubuntu1"; "5.2-1~ppa1"]
        /\ forall v,
            In v ["0.0~git20200101.1a2b3c-1"; "5.1-6ubuntu1"; "5.2-1~ppa1"] ->
            (debian_cmp v max_version <= 0)%Z)
  /\ @find_max_version Scenario.services
       ["0.0~git20200101.1a2b3c-1"; "5.1-6ubuntu1"; "5.2-1~ppa1"] Demo.empty_world
     = (Demo.empty_world, Ok "5.2-1~ppa1").
Proof.
  assert (Hin : In "5.1-6ubuntu1"
                   ["0.0~git20200101.1a2b3c-1"; "5.1-6ubuntu1"; "5.2-1~ppa1"])
    by (right; left; reflexivity).
  assert (Hgt : (debian_cmp "5.1-6ubuntu1" "0.0.0" > 0)%Z) by reflexivity.
  split; [split; [exact example_versions_compare | split; [exact Hin | exact Hgt]] |].
  split; [| reflexivity].
  exact (@max_version_is_a_maximum Scenario.services debian_cmp
           ["0.0~git20200101.1a2b3c-1"; "5.1-6ubuntu1"; "5.2-1~ppa1"]
           "5.1-6ubuntu1" Demo.empty_world
           example_versions_compare example_versions_refl example_versions_trans
           Hin Hgt).
Defined.

(** ** The order of the remote calls *)

Lemma calls_only_silent (P : Call -> bool) {A} (m : M A) :
  (forall w, calls (fst (m w)) = calls w) -> calls_only P m.
Proof.
  intros Hm w. exists []. rewrite app_nil_r. split; [apply Hm | constructor].
Qed.

Lemma calls_only_ret P {A} (a : A) : calls_only P (ret a).
Proof. apply calls_only_silent. reflexivity. Qed.

Lemma calls_only_lift P {A} (r : outcome A) : calls_only P (lift r).
Proof. apply calls_only_silent. reflexivity. Qed.

Lemma calls_only_print P s : calls_only P (print s).
Proof. apply calls_only_silent. reflexivity. Qed.

Lemma calls_only_write P path s : calls_only P (write path s).
Proof. apply calls_only_silent. reflexivity. Qed.

Lemma calls_only_open_w `{Services} P path : calls_only P (open_w path).
Proof.
  apply calls_only_silent. intros w. unfold open_w.
  destruct (writable path); reflexivity.
Qed.

Lemma calls_only_remote (P : Call -> bool) {A} c (r : outcome A) :
  P c = true -> calls_only P (remote c r).
Proof. intros Hc w. exists [c]. split; [reflexivity | repeat constructor; exact Hc]. Qed.

Lemma calls_only_bind P {A B} (m : M A) (k : A -> M B) :
  calls_only P m -> (forall a, calls_only P (k a)) -> calls_only P (bind m k).
Proof.
  intros Hm Hk w. unfold bind. destruct (Hm w) as (cs1 & Hcalls1 & Hcs1).
  destruct (m w) as [w1 [a | e]]; simpl in Hcalls1.
  - destruct (Hk a w1) as (cs2 & Hcalls2 & Hcs2).
    exists (cs1 ++ cs2). rewrite Hcalls2, Hcalls1, app_assoc.
    split; [reflexivity | apply Forall_app; split; assumption].
  - exists cs1. split; assumption.
Qed.

Lemma calls_only_for_each P {A S} (xs : list A) (body : A -> S -> M S) s :
  (forall x s, calls_only P (body x s)) -> calls_only P (for_each xs body s).
Proof.
  intros Hbody. revert s. induction xs as [| x xs IH]; intros s; simpl.
  - apply calls_only_ret.
  - apply calls_only_bind; [apply Hbody | exact IH].
Qed.

Ltac calls_only_step :=
  first
    [ apply calls_only_ret | apply calls_only_lift | apply calls_only_print
    | apply calls_only_write | apply calls_only_open_w
    | apply calls_only_remote; reflexivity
    | apply calls_only_bind; [| intros ?]
    | apply calls_only_for_each; intros ? ?
    | progress cbv beta
    | match goal with
      | |- calls_only _ ((let (_, _) := ?p in _) _) => is_var p; destruct p
      end
    | match goal with
      | |- calls_only _ (let (_, _) := ?p in _) => destruct p
      | |- calls_only _ (if ?b then _ else _) => destruct b
      | |- calls_only _ (match ?l with [] => _ | _ :: _ => _ end) => destruct l
      end ].

Ltac calls_only := repeat calls_only_step.

Section CallOrder.

Context `{Services}.





End CallOrder.

(** ** Packages are resolved one by one *)

Section OneByOne.

Context `{Services}.

Lemma find_max_version_same_outcome found :
  same_outcome (find_max_version found) (find_max_version found).
Proof. unfold find_max_version. same_outcome. Qed.

Lemma versions_found_same_outcome launchpad ubuntu das ppas name :
  same_outcome (versions_found_in_archive launchpad ubuntu das ppas name)
               (versions_found_in_archive launchpad ubuntu das ppas name).
Proof.
  intros w1 w2. rewrite !versions_found_unguarded. revert w1 w2.
  apply same_outcome_bind.
  - apply same_outcome_for_each. intros ppa found. apply ppa_versions_same_outcome.
  - intros found. apply same_outcome_for_each.
    intros pocket found'. apply pocket_versions_same_outcome.
Qed.

(** One turn of the loop over the packages appends to the list it is given,
    and what it appends depends neither on that list nor on the world. *)
Lemma archive_version_appended launchpad ubuntu das architecture ppas name acc w1 w2 :
  snd (archive_version launchpad ubuntu das architecture ppas name acc w1)
  = joined (Ok acc)
           (snd (archive_version launchpad ubuntu das architecture ppas name [] w2)).
Proof.
  unfold archive_version, bind.
  pose proof (versions_found_same_outcome launchpad ubuntu das ppas
                (Py.replace name (":" +:+ architecture) "") w1 w2) as Hfound.
  destruct (versions_found_in_archive _ _ _ _ _ w1) as [w1' [found1 | e1]],
           (versions_found_in_archive _ _ _ _ _ w2) as [w2' [found2 | e2]];
    simpl in Hfound; inversion Hfound; subst; [| reflexivity].
  pose proof (find_max_version_same_outcome found2 w1' w2') as Hmax.
  destruct (find_max_version found2 w1') as [w1'' [max1 | e1]],
           (find_max_version found2 w2') as [w2'' [max2 | e2]];
    simpl in Hmax; inversion Hmax; subst; reflexivity.
Qed.

Lemma joined_assoc {A} (l : list A) r1 r2 :
  joined (joined (Ok l) r1) r2 = joined (Ok l) (joined r1 r2).
Proof.
  destruct r1 as [l1 | e1], r2 as [l2 | e2]; simpl; try reflexivity.
  rewrite app_assoc. reflexivity.
Qed.

Lemma archive_versions_appended launchpad ubuntu das architecture ppas names :
  forall acc w1 w2,
    snd (for_each names (archive_version launchpad ubuntu das architecture ppas) acc w1)
    = joined (Ok acc)
        (snd (for_each names (archive_version launchpad ubuntu das architecture ppas)
                       [] w2)).
Proof.
  induction names as [| name names IH]; intros acc w1 w2.
  - simpl. rewrite app_nil_r. reflexivity.
  - cbn [for_each]. unfold bind.
    pose proof (archive_version_appended launchpad ubuntu das architecture ppas
                  name acc w1 w2) as Hone.
    destruct (archive_version _ _ _ _ _ name acc w1) as [w1' [acc1 | e1]],
             (archive_version _ _ _ _ _ name [] w2) as [w2' [one | e2]];
      simpl in Hone; inversion Hone; subst; [| reflexivity].
    rewrite (IH (acc ++ one) w1' w2'), (IH one w2' w2').
    rewrite <- joined_assoc. reflexivity.
Qed.

Lemma archive_versions_app launchpad ubuntu das architecture ppas names1 names2 w :
  snd (for_each (names1 ++ names2)
                (archive_version launchpad ubuntu das architecture ppas) [] w)
  = joined
      (snd (for_each names1 (archive_version launchpad ubuntu das architecture ppas)
                     [] w))
      (snd (for_each names2 (archive_version launchpad ubuntu das architecture ppas)
                     [] w)).
Proof.
  rewrite for_each_app. unfold bind.
  destruct (for_each names1 _ [] w) as [w1 [versions1 | e]]; [| reflexivity].
  simpl. apply archive_versions_appended.
Qed.

(** The outcome of the resolver: the set-up, then the loop. *)
Lemma get_archive_versions_outcome series names architecture ppas lp_user w :
  snd (get_archive_versions series names architecture ppas lp_user w)
  = match login_answer lp_user with
    | Raise e => Raise e
    | Ok launchpad =>
        match distributions launchpad "ubuntu" with
        | Raise e => Raise e
        | Ok ubuntu =>
            match getSeries ubuntu series with
            | Raise e => Raise e
            | Ok lp_series =>
                match getDistroArchSeries lp_series architecture with
                | Raise e => Raise e
                | Ok das =>
                    snd (for_each names
                           (archive_version launchpad ubuntu das architecture ppas)
                           [] w)
                end
            end
        end
    end.
Proof.
  destruct (login_answer lp_user) as [launchpad | e] eqn:Hlogin.
  2:{ unfold get_archive_versions, login_answer in *. apply bind_Raise_snd.
      destruct (truthy lp_user); unfold remote; simpl; exact Hlogin. }
  destruct (distributions launchpad "ubuntu") as [ubuntu | e] eqn:Hdistribution.
  2:{ unfold get_archive_versions, login_answer in *. unfold bind at 1.
      destruct (truthy lp_user); unfold remote at 1; rewrite Hlogin;
        apply bind_Raise_snd; unfold remote; simpl; exact Hdistribution. }
  destruct (getSeries ubuntu series) as [lp_series | e] eqn:Hseries.
  { destruct (getDistroArchSeries lp_series architecture) as [das | e] eqn:Hdas.
    - rewrite (get_archive_versions_after_setup _ _ _ _ _ _ _ _ _ _
                 Hlogin Hdistribution Hseries Hdas).
      rewrite (archive_versions_appended _ _ _ _ _ names [] _ w).
      destruct (snd (for_each names _ [] w)); reflexivity.
    - unfold get_archive_versions, login_answer in *. unfold bind at 1.
      destruct (truthy lp_user); unfold remote at 1; rewrite Hlogin;
        unfold bind at 1, remote at 1; rewrite Hdistribution;
        unfold bind at 1, remote at 1; rewrite Hseries;
        apply bind_Raise_snd; unfold remote; simpl; exact Hdas. }
  rewrite (unknown_series_aborts_setup series names architecture ppas lp_user
             launchpad ubuntu e w Hlogin Hdistribution Hseries).
  reflexivity.
Qed.

(** X15. Packages are resolved one by one, each on its own: resolving two
    lists of names joined gives the result for the first list followed by
    the result for the second, or the first exception met. *)
Theorem names_are_resolved_one_by_one series names1 names2 architecture ppas lp_user w :
  snd (get_archive_versions series (names1 ++ names2) architecture ppas lp_user w)
  = joined (snd (get_archive_versions series names1 architecture ppas lp_user w))
           (snd (get_archive_versions series names2 architecture ppas lp_user w)).
Proof.
  rewrite !get_archive_versions_outcome.
  destruct (login_answer lp_user) as [launchpad | e]; [| reflexivity].
  destruct (distributions launchpad "ubuntu") as [ubuntu | e]; [| reflexivity].
  destruct (getSeries ubuntu series) as [lp_series | e]; [| reflexivity].
  destruct (getDistroArchSeries lp_series architecture) as [das | e]; [| reflexivity].
  apply archive_versions_app.
Qed.

End OneByOne.
